(** * A shallow embedding of the video-hosting application [app.py]

    The development follows the source file top to bottom: the exception
    classes, the two service classes ([VideoService], [UserService]), the
    configuration of the application object, and the request handlers
    [upload] and [delete_video].  Python's exceptions are an explicit
    result type, the file system, the database session, the flashed
    messages and the calls into moviepy and imageio are fields of a world
    that every operation threads through a small state-and-exception
    monad. *)

From Stdlib Require Import String Ascii List QArith Qminmax Lia.
From stdpp Require Import gmap strings list.

Close Scope Q_scope.
Open Scope string_scope.

(** ** Python strings

    A [str] is modelled as a [string] of 8-bit characters; [lower] acts
    on the letters A to Z, as [str.lower] does on ASCII text. *)

Module PyStr.

(** [c in s] for a one-character [c]. *)
Fixpoint contains (c : ascii) (s : string) : bool :=
  match s with
  | EmptyString => false
  | String d s' => if Ascii.eqb d c then true else contains c s'
  end.

(** [s.rpartition(c)] when [c] occurs in [s]: the text before the last
    occurrence and the text after it; [None] when [c] does not occur. *)
Fixpoint rpartition (c : ascii) (s : string) : option (string * string) :=
  match s with
  | EmptyString => None
  | String d s' =>
      match rpartition c s' with
      | Some (h, t) => Some (String d h, t)
      | None => if Ascii.eqb d c then Some (EmptyString, s') else None
      end
  end.

(** [s.rsplit(c, 1)]: at most one split, made at the last [c]. *)
Definition rsplit1 (c : ascii) (s : string) : list string :=
  match rpartition c s with
  | Some (h, t) => [h; t]
  | None => [s]
  end.

Definition is_upper (c : ascii) : bool :=
  (65 <=? nat_of_ascii c)%nat && (nat_of_ascii c <=? 90)%nat.

Definition lower_char (c : ascii) : ascii :=
  if is_upper c then ascii_of_nat (nat_of_ascii c + 32) else c.

(** [s.lower()] *)
Fixpoint lower (s : string) : string :=
  match s with
  | EmptyString => EmptyString
  | String c s' => String (lower_char c) (lower s')
  end.

(** Two decimal digits, zero padded (the [%m %d %H %M %S] fields). *)
Definition digit (n : nat) : ascii := ascii_of_nat (48 + n mod 10).

Definition pad2 (n : nat) : string :=
  String (digit (n / 10)) (String (digit n) EmptyString).

(** Four decimal digits, zero padded (the [%Y] field). *)
Definition pad4 (n : nat) : string :=
  String (digit (n / 1000)) (String (digit (n / 100))
    (String (digit (n / 10)) (String (digit n) EmptyString))).

End PyStr.

(** ** Exceptions

    Every constructor stands for a subclass of [Exception]; the first four
    are the classes the application declares, the others are raised by
    the interpreter and the libraries. *)

Inductive exn : Type :=
| VideoStreamingError (msg : string)
| VideoUploadError (msg : string)
| ThumbnailGenerationError (msg : string)
| AuthenticationError (msg : string)
| UnboundLocalError (var : string)
| IndexError (msg : string)
| TypeError (msg : string)
| KeyError (key : string)
| OSError (msg : string)
| NotFound
| IntegrityError (msg : string)
| LibraryError (msg : string).

(** [str(e)]; for [UnboundLocalError] the wording is that of CPython
    before 3.11. *)
Definition str (e : exn) : string :=
  match e with
  | VideoStreamingError m | VideoUploadError m | ThumbnailGenerationError m
  | AuthenticationError m | IndexError m | TypeError m | OSError m
  | IntegrityError m | LibraryError m => m
  | UnboundLocalError v =>
      "local variable '" +:+ v +:+ "' referenced before assignment"
  | KeyError k => "'" +:+ k +:+ "'"
  | NotFound => "404 Not Found: The requested URL was not found on the server."
  end.

(** [isinstance(e, VideoUploadError)] and [isinstance(e, AuthenticationError)],
    the two classes named in [except] clauses of the handlers. *)
Definition is_VideoUploadError (e : exn) : bool :=
  match e with VideoUploadError _ => true | _ => false end.

Definition is_AuthenticationError (e : exn) : bool :=
  match e with AuthenticationError _ => true | _ => false end.

Inductive result (A : Type) : Type :=
| Return (a : A)
| Raise (e : exn).
Arguments Return {A} a.
Arguments Raise {A} e.

(** [l[i]] on a Python list. *)
Definition py_index {A} (l : list A) (i : nat) : result A :=
  match nth_error l i with
  | Some x => Return x
  | None => Raise (IndexError "list index out of range")
  end.

(** ** Data model *)

(** The raw bytes of a stored asset. *)
Definition data : Type := list Byte.byte.

(** [datetime] values, as [datetime.utcnow()] returns them. *)
Record datetime : Type := mk_datetime {
  year : nat; month : nat; day : nat;
  hour : nat; minute : nat; second : nat
}.

(** [t.strftime('%Y%m%d_%H%M%S')] *)
Definition strftime_Ymd_HMS (t : datetime) : string :=
  PyStr.pad4 (year t) +:+ PyStr.pad2 (month t) +:+ PyStr.pad2 (day t) +:+ "_" +:+
  PyStr.pad2 (hour t) +:+ PyStr.pad2 (minute t) +:+ PyStr.pad2 (second t).

(** werkzeug's [FileStorage]: the uploaded part of a multipart form.  Its
    truth value is that of its file name. *)
Module FileStorage.
Record t : Type := mk { filename : string; stream : data }.

(** [bool(file)] *)
Definition truthy (f : t) : bool := negb (String.eqb (filename f) "").
End FileStorage.

(** Rows of the [user] table. *)
Module User.
Record t : Type := mk {
  id : nat;
  username : string;
  password_hash : string;
  is_superuser : bool
}.
End User.

(** Rows of the [video] table; [thumbnail_filename] is the only nullable
    column. *)
Module Video.
Record t : Type := mk {
  id : nat;
  title : string;
  filename : string;
  thumbnail_filename : option string;
  upload_date : datetime
}.
End Video.

(** Objects handed to [db.session] and not flushed yet.  An object built
    by [User(...)] or [Video(...)] has no primary key, and [upload] builds
    its [Video] from a form field that may be absent. *)
Inductive pending : Type :=
| AddUser (username password_hash : string) (is_superuser : bool)
| AddVideo (title : option string) (filename : string)
           (thumbnail_filename : option string)
| DeleteVideo (id : nat).

Record Db : Type := mk_Db {
  users : list User.t;
  videos : list Video.t;
  session : list pending
}.

(** The two asset stores live in one file system, keyed by path.  A path
    in [locked] refuses removal (the directory does not allow the unlink,
    or the file is held open); a path in [read_only] refuses being created
    or overwritten.  The two are independent. *)
Record FS : Type := mk_FS {
  files : gmap string data;
  locked : gset string;
  read_only : gset string
}.

(** Calls into moviepy and imageio, in the order they are made. *)
Inductive lib_call : Type :=
| Call_VideoFileClip (path : string)
| Call_save_frame (path : string) (t : Q)
| Call_clip_close
| Call_get_reader (path : string)
| Call_get_data (index : nat)
| Call_imwrite (path : string)
| Call_reader_close.

(** [utcnow] is the reading of the clock while the request is served. *)
Record World : Type := mk_World {
  fs : FS;
  db : Db;
  utcnow : datetime;
  flashes : list string;
  stdout : list string;
  calls : list lib_call
}.

Definition set_fs (f : FS -> FS) (w : World) : World :=
  mk_World (f (fs w)) (db w) (utcnow w) (flashes w) (stdout w) (calls w).
Definition set_db (f : Db -> Db) (w : World) : World :=
  mk_World (fs w) (f (db w)) (utcnow w) (flashes w) (stdout w) (calls w).
Definition set_flashes (f : list string -> list string) (w : World) : World :=
  mk_World (fs w) (db w) (utcnow w) (f (flashes w)) (stdout w) (calls w).
Definition set_stdout (f : list string -> list string) (w : World) : World :=
  mk_World (fs w) (db w) (utcnow w) (flashes w) (f (stdout w)) (calls w).
Definition set_calls (f : list lib_call -> list lib_call) (w : World) : World :=
  mk_World (fs w) (db w) (utcnow w) (flashes w) (stdout w) (f (calls w)).

(** ** The state-and-exception monad *)

Definition M (S A : Type) : Type := S -> S * result A.

Definition ret {S A} (a : A) : M S A := fun s => (s, Return a).

Definition raise {S A} (e : exn) : M S A := fun s => (s, Raise e).

Definition bind {S A B} (m : M S A) (k : A -> M S B) : M S B :=
  fun s =>
    match m s with
    | (s', Return a) => k a s'
    | (s', Raise e) => (s', Raise e)
    end.

Declare Scope py_scope.
Delimit Scope py_scope with py.
Notation "x <- m ;; k" := (bind m (fun x => k))
  (at level 20, m at level 99, k at level 200, right associativity) : py_scope.
Notation "m ;; k" := (bind m (fun _ => k))
  (at level 100, k at level 200, right associativity) : py_scope.
Open Scope py_scope.

(** [try: body  except C as e: handler e], with [C] given by the test
    [caught]; an exception raised by the handler itself propagates. *)
Definition try_except {S A} (body : M S A) (caught : exn -> bool)
    (handler : exn -> M S A) : M S A :=
  fun s =>
    match body s with
    | (s', Return a) => (s', Return a)
    | (s', Raise e) => if caught e then handler e s' else (s', Raise e)
    end.

(** [except Exception]: every modelled exception derives from it. *)
Definition is_Exception (e : exn) : bool := true.

(** A value or exception computed without touching the state. *)
Definition lift_result {S A} (r : result A) : M S A := fun s => (s, r).

(** A function body with local variables [L]: [in_frame] runs a world
    action from inside the body, [call_frame] runs the body from fresh
    locals and discards them on exit. *)
Definition in_frame {L A} (m : M World A) : M (L * World) A :=
  fun lw => let '(w', r) := m (snd lw) in ((fst lw, w'), r).

Definition call_frame {L A} (init : L) (body : M (L * World) A) : M World A :=
  fun w => let '(lw, r) := body (init, w) in (snd lw, r).

(** ** Effects of the standard library and of Flask *)

Definition print (line : string) : M World unit :=
  fun w => (set_stdout (fun out => (out ++ [line])%list) w, Return tt).

Definition flash (message : string) : M World unit :=
  fun w => (set_flashes (fun fl => (fl ++ [message])%list) w, Return tt).

Definition os_path_exists (path : string) : M World bool :=
  fun w => (w, Return (bool_decide (is_Some (files (fs w) !! path)))).

Definition os_remove (path : string) : M World unit :=
  fun w =>
    if bool_decide (path ∈ locked (fs w)) then
      (w, Raise (OSError ("[Errno 13] Permission denied: '" +:+ path +:+ "'")))
    else if bool_decide (is_Some (files (fs w) !! path)) then
      (set_fs (fun f => mk_FS (delete path (files f)) (locked f) (read_only f)) w,
       Return tt)
    else
      (w, Raise (OSError ("[Errno 2] No such file or directory: '" +:+ path +:+ "'"))).

(** Creating or overwriting the file at [path]. *)
Definition write_file (path : string) (content : data) : M World unit :=
  fun w =>
    if bool_decide (path ∈ read_only (fs w)) then
      (w, Raise (OSError ("[Errno 13] Permission denied: '" +:+ path +:+ "'")))
    else
      (set_fs (fun f => mk_FS (<[path := content]> (files f)) (locked f) (read_only f)) w,
       Return tt).

(** [file.save(path)] *)
Definition FileStorage_save (file : FileStorage.t) (path : string) : M World unit :=
  write_file path (FileStorage.stream file).

Fixpoint last_char (s : string) : option ascii :=
  match s with
  | EmptyString => None
  | String c EmptyString => Some c
  | String _ s' => last_char s'
  end.

(** [os.path.join(a, b)] on POSIX, for two [str] arguments. *)
Definition os_path_join (a b : string) : string :=
  match b with
  | String "/" _ => b
  | _ =>
      match last_char a with
      | None => b
      | Some "/"%char => a +:+ b
      | Some _ => a +:+ "/" +:+ b
      end
  end.

(** [datetime.utcnow()] *)
Definition datetime_utcnow : M World datetime :=
  fun w => (w, Return (utcnow w)).

(** ** The database session *)

(** The key SQLite gives a new row: one more than the largest in use. *)
Definition next_id (ids : list nat) : nat := S (max_list ids).

(** Flushing one pending object against the tables: [username] is unique,
    [title] is not nullable, [upload_date] defaults to the clock. *)
Definition flush_one (now : datetime) (op : pending)
    (tables : list User.t * list Video.t) : result (list User.t * list Video.t) :=
  let '(us, vs) := tables in
  match op with
  | AddUser name hash super =>
      if existsb (fun u => String.eqb (User.username u) name) us then
        Raise (IntegrityError "UNIQUE constraint failed: user.username")
      else
        Return ((us ++ [User.mk (next_id (map User.id us)) name hash super])%list, vs)
  | AddVideo None _ _ =>
      Raise (IntegrityError "NOT NULL constraint failed: video.title")
  | AddVideo (Some title) file thumb =>
      Return (us, (vs ++ [Video.mk (next_id (map Video.id vs)) title file thumb now])%list)
  | DeleteVideo i =>
      Return (us, List.filter (fun v => negb (Video.id v =? i)%nat) vs)
  end.

Fixpoint flush (now : datetime) (ops : list pending)
    (tables : list User.t * list Video.t) : result (list User.t * list Video.t) :=
  match ops with
  | [] => Return tables
  | op :: ops' =>
      match flush_one now op tables with
      | Return tables' => flush now ops' tables'
      | Raise e => Raise e
      end
  end.

(** [db.session.add(obj)] and [db.session.delete(obj)] *)
Definition session_add (op : pending) : M World unit :=
  fun w =>
    (set_db (fun d => mk_Db (users d) (videos d) (session d ++ [op])%list) w, Return tt).

Definition session_delete (video : Video.t) : M World unit :=
  session_add (DeleteVideo (Video.id video)).

(** [db.session.commit()]: all pending objects are written, or none is
    and the error of the first failing one is raised. *)
Definition session_commit : M World unit :=
  fun w =>
    match flush (utcnow w) (session (db w)) (users (db w), videos (db w)) with
    | Return (us, vs) => (set_db (fun _ => mk_Db us vs []) w, Return tt)
    | Raise e => (w, Raise e)
    end.

(** [db.session.rollback()] *)
Definition session_rollback : M World unit :=
  fun w => (set_db (fun d => mk_Db (users d) (videos d) []) w, Return tt).

(** [User.query.filter_by(username=username).first()] *)
Definition query_user_by_username (username : string) : M World (option User.t) :=
  fun w =>
    (w, Return (find (fun u => String.eqb (User.username u) username) (users (db w)))).

(** [Video.query.get_or_404(video_id)] *)
Definition Video_get_or_404 (video_id : nat) : M World Video.t :=
  fun w =>
    match find (fun v => (Video.id v =? video_id)%nat) (videos (db w)) with
    | Some v => (w, Return v)
    | None => (w, Raise NotFound)
    end.

(** The row behind a [User] object once the session has flushed it. *)
Definition flushed_user (username : string) : M World User.t :=
  fun w =>
    match find (fun u => String.eqb (User.username u) username) (users (db w)) with
    | Some u => (w, Return u)
    | None => (w, Raise (LibraryError "Instance is not persistent within this Session"))
    end.

(** ** moviepy and imageio

    A clip or a reader, once opened, answers as its fields say.  Floats
    are read as rationals. *)
Record VideoClip : Type := mk_VideoClip {
  duration : Q;
  frame_at : Q -> result data;
  clip_on_close : result unit
}.

Record Reader : Type := mk_Reader {
  frame_number : nat -> result data;
  reader_on_close : result unit
}.

(** [min(a, b)]: the first argument unless the second is smaller. *)
Definition py_min (a b : Q) : Q :=
  match Qcompare b a with
  | Lt => b
  | _ => a
  end.

Arguments py_min : simpl never.

Definition log_call (c : lib_call) : M World unit :=
  fun w => (set_calls (fun l => (l ++ [c])%list) w, Return tt).

(** [video.save_frame(path, t=t)] *)
Definition save_frame (video : VideoClip) (path : string) (t : Q) : M World unit :=
  log_call (Call_save_frame path t) ;;
  image <- lift_result (frame_at video t) ;;
  write_file path image.

(** [video.close()] *)
Definition clip_close (video : VideoClip) : M World unit :=
  log_call Call_clip_close ;; lift_result (clip_on_close video).

(** [reader.get_data(index)] *)
Definition get_data (reader : Reader) (index : nat) : M World data :=
  log_call (Call_get_data index) ;; lift_result (frame_number reader index).

(** [imageio.imwrite(path, image)] *)
Definition imageio_imwrite (path : string) (image : data) : M World unit :=
  log_call (Call_imwrite path) ;; write_file path image.

(** [reader.close()] *)
Definition reader_close (reader : Reader) : M World unit :=
  log_call Call_reader_close ;; lift_result (reader_on_close reader).

(** ** Configuration and responses *)

Record VideoService : Type := mk_VideoService {
  upload_folder : string;
  thumbnail_folder : string;
  allowed_extensions : gset string
}.

Definition UPLOAD_FOLDER : string := "static/uploads".
Definition THUMBNAIL_FOLDER : string := "static/thumbnails".
Definition ALLOWED_EXTENSIONS : gset string :=
  {[ "mp4"; "avi"; "mov"; "wmv"; "flv"; "mkv" ]}.

(** [video_service = VideoService(app)] *)
Definition video_service : VideoService :=
  mk_VideoService UPLOAD_FOLDER THUMBNAIL_FOLDER ALLOWED_EXTENSIONS.

Inductive response : Type :=
| Redirect (target : string)
| RenderTemplate (name : string).

(** The local variable [video_path] of [save_video], unbound until the
    assignment runs. *)
Definition store_video_path (p : string) : M (option string * World) unit :=
  fun lw => ((Some p, snd lw), Return tt).

Definition load_video_path : M (option string * World) string :=
  fun lw =>
    match fst lw with
    | Some p => (lw, Return p)
    | None => (lw, Raise (UnboundLocalError "video_path"))
    end.

Section App.

(** The libraries the application calls: opening a clip or a reader
    depends on the path and on the bytes found there ([None]: no such
    file); werkzeug hashes a password with a fresh random [salt]. *)
Variable VideoFileClip : string -> option data -> result VideoClip.
Variable imageio_get_reader : string -> option data -> result Reader.
Variable generate_password_hash : string -> string -> string.
Variable check_password_hash : string -> string -> bool.

Definition open_clip (path : string) : M World VideoClip :=
  log_call (Call_VideoFileClip path) ;;
  (fun w => (w, VideoFileClip path (files (fs w) !! path))).

Definition open_reader (path : string) : M World Reader :=
  log_call (Call_get_reader path) ;;
  (fun w => (w, imageio_get_reader path (files (fs w) !! path))).

(** ** class VideoService *)

(** The body of the inner [try] of [generate_thumbnail]. *)
Definition thumbnail_via_moviepy (video_path thumbnail_path : string) : M World bool :=
  video <- open_clip video_path ;;
  let time := py_min 1 (duration video) in
  save_frame video thumbnail_path time ;;
  clip_close video ;;
  ret true.

(** The handler of the inner [try]: the imageio fallback. *)
Definition thumbnail_via_imageio (video_path thumbnail_path : string) (e : exn) : M World bool :=
  print ("VideoFileClip failed: " +:+ str e) ;;
  reader <- open_reader video_path ;;
  first_frame <- get_data reader 0 ;;
  imageio_imwrite thumbnail_path first_frame ;;
  reader_close reader ;;
  ret true.

Definition generate_thumbnail (self : VideoService)
    (video_path thumbnail_path : string) : M World bool :=
  try_except
    (try_except
       (thumbnail_via_moviepy video_path thumbnail_path)
       is_Exception
       (thumbnail_via_imageio video_path thumbnail_path))
    is_Exception
    (fun e =>
       print ("Thumbnail generation failed: " +:+ str e) ;;
       raise (ThumbnailGenerationError ("Failed to generate thumbnail: " +:+ str e))).

Definition _is_allowed_file (self : VideoService) (filename : string) : result bool :=
  if PyStr.contains "." filename then
    match py_index (PyStr.rsplit1 "." filename) 1 with
    | Return ext => Return (bool_decide (PyStr.lower ext ∈ allowed_extensions self))
    | Raise e => Raise e
    end
  else Return false.

(** [save_video], with the statement that follows a falsy return of
    [generate_thumbnail] left as a parameter. *)
Definition save_video_with (falsy_branch : M (option string * World) (string * string))
    (self : VideoService) (video_file : option FileStorage.t)
    (title : option string) : M World (string * string) :=
  call_frame None
    (try_except
       (file <- match video_file with
                | None => raise (VideoUploadError "No video file selected")
                | Some f =>
                    if negb (FileStorage.truthy f)
                       || String.eqb (FileStorage.filename f) "" then
                      raise (VideoUploadError "No video file selected")
                    else ret f
                end ;;
        allowed <- lift_result (_is_allowed_file self (FileStorage.filename file)) ;;
        (if negb allowed then
           raise (VideoUploadError
                    "Invalid file type. Allowed formats: MP4, AVI, MOV, WMV, FLV, MKV")
         else ret tt) ;;
        now <- in_frame datetime_utcnow ;;
        let filename := strftime_Ymd_HMS now +:+ "_" +:+ FileStorage.filename file in
        store_video_path (os_path_join (upload_folder self) filename) ;;
        video_path <- load_video_path ;;
        in_frame (FileStorage_save file video_path) ;;
        stem <- lift_result (py_index (PyStr.rsplit1 "." filename) 0) ;;
        let thumbnail_filename := "thumb_" +:+ stem +:+ ".jpg" in
        let thumbnail_path := os_path_join (thumbnail_folder self) thumbnail_filename in
        video_path <- load_video_path ;;
        ok <- in_frame (generate_thumbnail self video_path thumbnail_path) ;;
        if ok then ret (filename, thumbnail_filename)
        else falsy_branch)
       is_Exception
       (fun e =>
          video_path <- load_video_path ;;
          present <- in_frame (os_path_exists video_path) ;;
          (if present then
             video_path <- load_video_path ;;
             in_frame (os_remove video_path)
           else ret tt) ;;
          raise (VideoUploadError ("Failed to upload video: " +:+ str e)))).

Definition save_video : VideoService -> option FileStorage.t -> option string ->
                        M World (string * string) :=
  save_video_with (raise (ThumbnailGenerationError "Failed to generate thumbnail")).

(** ** class UserService *)

Definition create_user (username password salt : string) : M World User.t :=
  try_except
    ((if (String.length password <? 8)%nat then
        raise (AuthenticationError "Password must be at least 8 characters long")
      else ret tt) ;;
     existing <- query_user_by_username username ;;
     match existing with
     | Some _ => raise (AuthenticationError "Username already exists")
     | None => ret tt
     end ;;
     session_add (AddUser username (generate_password_hash salt password) false) ;;
     session_commit ;;
     flushed_user username)
    is_Exception
    (fun e =>
       session_rollback ;;
       raise (AuthenticationError ("Failed to create user: " +:+ str e))).

Definition authenticate_user (username password : string) : M World User.t :=
  try_except
    (user <- query_user_by_username username ;;
     match user with
     | None => raise (AuthenticationError "Invalid username or password")
     | Some u =>
         if negb (check_password_hash (User.password_hash u) password) then
           raise (AuthenticationError "Invalid username or password")
         else ret u
     end)
    is_Exception
    (fun e => raise (AuthenticationError ("Authentication failed: " +:+ str e))).

(** ** Request handlers *)

(** [upload], for a logged-in [current_user]; [files_video] is
    [request.files] at the key ['video'] and [form_title] is
    [request.form.get('title')]. *)
Definition upload (current_user : User.t) (method request_url : string)
    (files_video : option FileStorage.t) (form_title : option string) : M World response :=
  if negb (User.is_superuser current_user) then
    flash "Only superusers can upload videos" ;;
    ret (Redirect "home")
  else if String.eqb method "POST" then
    try_except
      (video <- match files_video with
                | Some v => ret v
                | None => raise (KeyError "video")
                end ;;
       let title := form_title in
       names <- save_video video_service (Some video) title ;;
       let '(filename, thumbnail_filename) := names in
       session_add (AddVideo title filename (Some thumbnail_filename)) ;;
       session_commit ;;
       flash "Video uploaded successfully!" ;;
       ret (Redirect "home"))
      is_VideoUploadError
      (fun e => flash (str e) ;; ret (Redirect request_url))
  else ret (RenderTemplate "upload.html").

(** [delete_video], for a logged-in [current_user]. *)
Definition delete_video (current_user : User.t) (video_id : nat) : M World response :=
  if negb (User.is_superuser current_user) then
    flash "Only superusers can delete videos" ;;
    ret (Redirect "home")
  else
    try_except
      (video <- Video_get_or_404 video_id ;;
       let video_path := os_path_join UPLOAD_FOLDER (Video.filename video) in
       thumbnail_path <-
         match Video.thumbnail_filename video with
         | Some name => ret (os_path_join THUMBNAIL_FOLDER name)
         | None =>
             raise (TypeError "expected str, bytes or os.PathLike object, not NoneType")
         end ;;
       video_present <- os_path_exists video_path ;;
       (if video_present then os_remove video_path else ret tt) ;;
       thumbnail_present <- os_path_exists thumbnail_path ;;
       (if thumbnail_present then os_remove thumbnail_path else ret tt) ;;
       session_delete video ;;
       session_commit ;;
       flash "Video deleted successfully!")
      is_Exception
      (fun e => flash ("Error deleting video: " +:+ str e)) ;;
    ret (Redirect "home").

End App.

(** ** The remaining handlers and the start-up block *)

(** [User.query.get_or_404(user_id)].  The route accepts any decimal
    number.  SQLite keys are below 2^63, so no row carries a larger key;
    binding such a key as a query parameter raises [OverflowError] in the
    driver instead of reaching the 404. *)
Definition User_get_or_404 (user_id : nat) : M World User.t :=
  fun w =>
    match find (fun u => (User.id u =? user_id)%nat) (users (db w)) with
    | Some u => (w, Return u)
    | None =>
        if (N.of_nat user_id <? 2 ^ 63)%N then (w, Raise NotFound)
        else (w, Raise (LibraryError "Python int too large to convert to SQLite INTEGER"))
    end.

(** Rows of [user] handed to [db.session.delete] and not flushed yet.
    [Db] has no place for them: their keys are carried beside the world
    while [delete_user] runs, and [db.session.commit()] removes the rows
    once the objects already pending have been written. *)
Definition session_delete_user (user : User.t) : M (list nat * World) unit :=
  fun lw => (((fst lw ++ [User.id user])%list, snd lw), Return tt).

Definition session_commit_deleting : M (list nat * World) unit :=
  fun lw =>
    match session_commit (snd lw) with
    | (w', Return _) =>
        (([],
          set_db (fun d =>
                    mk_Db (List.filter
                             (fun u => negb (existsb (Nat.eqb (User.id u)) (fst lw)))
                             (users d))
                          (videos d) (session d)) w'),
         Return tt)
    | (w', Raise e) => ((fst lw, w'), Raise e)
    end.

(** flask-login keeps the logged-in user in the browser session, carried
    beside the world as an [option User.t]. *)
Definition login_user (user : User.t) : M (option User.t * World) bool :=
  fun lw => ((Some user, snd lw), Return true).

Definition logout_user : M (option User.t * World) bool :=
  fun lw => ((None, snd lw), Return true).

(** [db.create_all()]: the two tables are always there in this model. *)
Definition db_create_all : M World unit := ret tt.

Section Handlers.

Variable generate_password_hash : string -> string -> string.
Variable check_password_hash : string -> string -> bool.

(** [register], for a request whose form carries both fields. *)
Definition register (method username password salt : string) : M World response :=
  if String.eqb method "POST" then
    try_except
      (user <- create_user generate_password_hash username password salt ;;
       flash "Registration successful! Please login." ;;
       ret (Redirect "login"))
      is_AuthenticationError
      (fun e => flash (str e) ;; ret (Redirect "register"))
  else ret (RenderTemplate "register.html").

(** [user_service.authenticate_user(username, password)] on the two form
    fields, which [request.form.get] leaves [None] when absent.  With
    both present this is [authenticate_user].  An absent name matches no
    row, the column being non-nullable; an absent password reaches
    [check_password_hash] only once a row is found, and werkzeug then
    raises on [password.encode]. *)
Definition authenticate_form (username password : option string) : M World User.t :=
  match username, password with
  | Some u, Some p => authenticate_user check_password_hash u p
  | _, _ =>
      try_except
        (user <- match username with
                 | Some u => query_user_by_username u
                 | None => ret None
                 end ;;
         match user with
         | None => raise (AuthenticationError "Invalid username or password")
         | Some _ =>
             raise (LibraryError "'NoneType' object has no attribute 'encode'")
         end)
        is_Exception
        (fun e => raise (AuthenticationError ("Authentication failed: " +:+ str e)))
  end.

(** [login]; after a failed attempt control falls through to the final
    [render_template]. *)
Definition login (method : string) (username password : option string) :
    M (option User.t * World) response :=
  if String.eqb method "POST" then
    try_except
      (user <- in_frame (authenticate_form username password) ;;
       login_user user ;;
       ret (Redirect "home"))
      is_AuthenticationError
      (fun e => in_frame (flash (str e)) ;; ret (RenderTemplate "login.html"))
  else ret (RenderTemplate "login.html").

Definition logout : M (option User.t * World) response :=
  logout_user ;; ret (Redirect "home").

(** [delete_user], for a logged-in [current_user]. *)
Definition delete_user (current_user : User.t) (user_id : nat) : M World response :=
  if negb (User.is_superuser current_user) then
    flash "Access denied. Only superusers can delete users." ;;
    ret (Redirect "home")
  else
    user <- User_get_or_404 user_id ;;
    if User.is_superuser user then
      flash "Cannot delete superuser accounts." ;;
      ret (Redirect "admin_dashboard")
    else
      call_frame []
        (try_except
           (session_delete_user user ;;
            session_commit_deleting ;;
            in_frame (flash "User deleted successfully!"))
           is_Exception
           (fun e => in_frame (flash "Error deleting user"))) ;;
      ret (Redirect "admin_dashboard").

(** The block under [if __name__ == '__main__'], up to [app.run]. *)
Definition main (salt : string) : M World unit :=
  try_except
    (db_create_all ;;
     existing <- query_user_by_username "piyu" ;;
     match existing with
     | None =>
         session_add (AddUser "piyu" (generate_password_hash salt "piyu") true) ;;
         session_commit ;;
         print "Superuser created successfully!"
     | Some _ => print "Superuser already exists!"
     end ;;
     print "Database initialized successfully!")
    is_Exception
    (fun e =>
       print ("Error initializing database: " +:+ str e) ;;
       session_rollback).

End Handlers.

(** ** Sample worlds and libraries *)

Definition sample_time : datetime := mk_datetime 2024 3 9 14 5 7.

Definition sample_frame : data := [Byte.xff; Byte.xd8; Byte.xff; Byte.xd9].

Definition sample_clip : VideoClip :=
  mk_VideoClip (5 # 2) (fun _ => Return sample_frame) (Return tt).

Definition sample_reader : Reader :=
  mk_Reader (fun _ => Return sample_frame) (Return tt).

(** A clip shorter than one second. *)
Definition short_clip : VideoClip :=
  mk_VideoClip (1 # 2) (fun _ => Return sample_frame) (Return tt).

Definition short_VideoFileClip (path : string) (content : option data) : result VideoClip :=
  Return short_clip.

(** Libraries that decode whatever file they find. *)
Definition decoding_VideoFileClip (path : string) (content : option data) : result VideoClip :=
  match content with
  | Some _ => Return sample_clip
  | None => Raise (OSError "MoviePy error: the file could not be found")
  end.

Definition decoding_get_reader (path : string) (content : option data) : result Reader :=
  match content with
  | Some _ => Return sample_reader
  | None => Raise (OSError "No such file")
  end.

(** Libraries that open every file and cannot read a frame from it. *)
Definition unreadable_clip : VideoClip :=
  mk_VideoClip (3 # 1) (fun _ => Raise (LibraryError "MoviePy error: failed to read the first frame"))
    (Return tt).

Definition unreadable_reader : Reader :=
  mk_Reader (fun _ => Raise (IndexError "Reached end of video")) (Return tt).

Definition unreadable_VideoFileClip (path : string) (content : option data) : result VideoClip :=
  Return unreadable_clip.

Definition unreadable_get_reader (path : string) (content : option data) : result Reader :=
  Return unreadable_reader.

(** Libraries that reject every file. *)
Definition failing_VideoFileClip (path : string) (content : option data) : result VideoClip :=
  Raise (LibraryError "MoviePy error: failed to read the duration of file").

Definition failing_get_reader (path : string) (content : option data) : result Reader :=
  Raise (LibraryError "Could not find a backend to open the file").

(** A stand-in for werkzeug's salted digests. *)
Definition sample_hash (salt password : string) : string :=
  "sha256$" +:+ salt +:+ "$" +:+ password.

Definition sample_check (hash password : string) : bool :=
  match PyStr.rpartition "$" hash with
  | Some (_, p) => String.eqb p password
  | None => false
  end.

Definition empty_world : World :=
  mk_World (mk_FS ∅ ∅ ∅) (mk_Db [] [] []) sample_time [] [] [].

Definition admin : User.t := User.mk 1 "piyu" (sample_hash "s0" "piyu") true.

Definition cat_file : FileStorage.t :=
  FileStorage.mk "cat.mp4" [Byte.x00; Byte.x01].

Definition cat_avi_file : FileStorage.t :=
  FileStorage.mk "cat.avi" [Byte.x02; Byte.x03].

Definition notes_file : FileStorage.t :=
  FileStorage.mk "notes.txt" [Byte.x68; Byte.x69].

Definition bob : User.t := User.mk 2 "bob" (sample_hash "s1" "correct horse") false.

Definition registered_world : World :=
  mk_World (mk_FS ∅ ∅ ∅) (mk_Db [admin; bob] [] []) sample_time [] [] [].

(** A stored video whose asset refuses removal, next to a thumbnail that
    does not. *)
Definition cat_video : Video.t :=
  Video.mk 1 "Cat Video" "20240309_140507_cat.mp4"
    (Some "thumb_20240309_140507_cat.jpg") sample_time.

Definition cat_video_path : string := "static/uploads/20240309_140507_cat.mp4".

Definition cat_thumbnail_path : string :=
  "static/thumbnails/thumb_20240309_140507_cat.jpg".

Definition stored_world : World :=
  mk_World
    (mk_FS (<[cat_video_path := FileStorage.stream cat_file]>
              (<[cat_thumbnail_path := sample_frame]> ∅))
           ∅ ∅)
    (mk_Db [admin] [cat_video] []) sample_time [] [] [].

(** The same stores with the video asset refusing writes; empty stores
    whose video path accepts the write and refuses removal; the stored
    video refusing removal. *)
Definition read_only_world : World :=
  set_fs (fun f => mk_FS (files f) (locked f) {[ cat_video_path ]}) stored_world.

Definition sticky_world : World :=
  set_fs (fun f => mk_FS (files f) {[ cat_video_path ]} (read_only f)) empty_world.

Definition locked_world : World :=
  set_fs (fun f => mk_FS (files f) {[ cat_video_path ]} (read_only f)) stored_world.

(** ** Notions used in the statements *)

(** The storage key of an upload declared as [declared] at time [now],
    and the thumbnail key derived from a storage key. *)
Definition storage_name (now : datetime) (declared : string) : string :=
  strftime_Ymd_HMS now +:+ "_" +:+ declared.

Definition thumbnail_name (stored : string) : string :=
  "thumb_" +:+
  match PyStr.rpartition "." stored with Some (h, _) => h | None => stored end
  +:+ ".jpg".

Definition video_path_of (self : VideoService) (w : World) (file : FileStorage.t) : string :=
  os_path_join (upload_folder self)
    (storage_name (utcnow w) (FileStorage.filename file)).

Definition thumbnail_path_of (self : VideoService) (w : World) (file : FileStorage.t) : string :=
  os_path_join (thumbnail_folder self)
    (thumbnail_name (storage_name (utcnow w) (FileStorage.filename file))).

(** The handler of [save_video] when [video_path] is bound: the stored
    asset is removed if it exists, and the error is wrapped. *)
Definition cleanup (video_path : string) (e : exn) (w : World) :
    World * result (string * string) :=
  if bool_decide (is_Some (files (fs w) !! video_path)) then
    match os_remove video_path w with
    | (w', Return _) =>
        (w', Raise (VideoUploadError ("Failed to upload video: " +:+ str e)))
    | (w', Raise e') => (w', Raise e')
    end
  else (w, Raise (VideoUploadError ("Failed to upload video: " +:+ str e))).

(** Thumbnail extraction writes files, prints and calls the libraries;
    it leaves the locks, the database, the clock and the flashed messages
    as they were. *)
Definition media_frame (w w' : World) : Prop :=
  locked (fs w') = locked (fs w) /\ db w' = db w /\
  utcnow w' = utcnow w /\ flashes w' = flashes w.

(** A request starts with an empty session, on a table that satisfies
    its unique constraint. *)
Definition at_rest (w : World) : Prop :=
  session (db w) = [] /\ NoDup (map User.username (users (db w))).

(** An asset that exists and refuses to be removed. *)
Definition blocked (w : World) (path : string) : Prop :=
  is_Some (files (fs w) !! path) /\ path ∈ locked (fs w).

(** The paths [delete_video] computes for a record. *)
Definition video_asset (video : Video.t) : string :=
  os_path_join UPLOAD_FOLDER (Video.filename video).

Definition thumbnail_asset (name : string) : string :=
  os_path_join THUMBNAIL_FOLDER name.

(** What a block of [generate_thumbnail] does to the files: only the
    thumbnail path can change, and a block that returns has written it. *)
Definition writes_only (thumbnail_path : string) (w : World) (out : World * result bool) : Prop :=
  (forall p, p <> thumbnail_path -> files (fs (fst out)) !! p = files (fs w) !! p) /\
  (is_Some (files (fs w) !! thumbnail_path) -> is_Some (files (fs (fst out)) !! thumbnail_path)) /\
  match snd out with
  | Return _ =>
      is_Some (files (fs (fst out)) !! thumbnail_path) /\
      thumbnail_path ∉ read_only (fs w)
  | Raise _ => True
  end.

(** The number of rows of the [user] table that carry [name]. *)
Definition count_username (name : string) (us : list User.t) : nat :=
  length (List.filter (fun u => String.eqb (User.username u) name) us).

Ltac unfold_monad :=
  cbv [bind ret raise try_except lift_result in_frame call_frame is_Exception
       print flash log_call os_path_exists os_remove write_file FileStorage_save
       datetime_utcnow store_video_path load_video_path
       save_frame clip_close get_data imageio_imwrite reader_close
       session_add session_delete session_commit session_rollback
       query_user_by_username Video_get_or_404 flushed_user] in *.

Ltac delete_video_cases :=
  cbn [negb fst snd];
  repeat match goal with
         | |- context [bool_decide ?P] =>
             let E := fresh "E" in destruct (bool_decide P) eqn:E
         end;
  cbn [fst snd set_fs set_db set_flashes fs db files locked session users videos
       utcnow flashes];
  repeat match goal with
         | H : session _ = [] |- _ => rewrite H
         end;
  cbn [app flush flush_one fst snd set_fs set_db set_flashes fs db files locked
       session users videos utcnow flashes];
  repeat match goal with
         | H : bool_decide _ = true |- _ => apply bool_decide_eq_true in H
         | H : bool_decide _ = false |- _ => apply bool_decide_eq_false in H
         end;
  cbn [set_fs fs files locked] in *.

(** * Properties *)

(** ** Splitting at the last dot *)

Lemma contains_app_dot (c : ascii) (h t : string) :
  PyStr.contains c (h +:+ String c t) = true.
Proof.
  induction h as [|d h IH]; simpl.
  - now rewrite Ascii.eqb_refl.
  - destruct (Ascii.eqb d c); [reflexivity | exact IH].
Qed.

Lemma contains_dot_app (stem ext : string) :
  PyStr.contains "." (stem +:+ "." +:+ ext) = true.
Proof. exact (contains_app_dot "." stem ext). Qed.

Lemma rpartition_None (c : ascii) (s : string) :
  PyStr.rpartition c s = None <-> PyStr.contains c s = false.
Proof.
  induction s as [|d s IH]; simpl; [tauto|].
  destruct (PyStr.rpartition c s) as [[h t]|].
  - destruct (Ascii.eqb d c); split; try discriminate.
    intros H. apply IH in H. discriminate.
  - destruct (Ascii.eqb d c); split; try discriminate; intros _;
      [now apply IH | reflexivity].
Qed.

Lemma rpartition_Some (c : ascii) (s h t : string) :
  PyStr.rpartition c s = Some (h, t) <->
  s = h +:+ String c t /\ PyStr.contains c t = false.
Proof.
  revert h; induction s as [|d s IH]; intros h; simpl.
  - split; [discriminate|]. intros [H _]. destruct h; discriminate.
  - destruct (PyStr.rpartition c s) as [[h' t']|] eqn:E.
    + split.
      * intros [= <- <-]. destruct (proj1 (IH h') eq_refl) as [-> Ht].
        now split.
      * intros [Hs Ht]. destruct h as [|d' h]; simpl in Hs.
        -- injection Hs as -> ->. apply rpartition_None in Ht. congruence.
        -- injection Hs as -> Hs.
           assert (Some (h', t') = Some (h, t)) as [= -> ->]
             by (apply IH; now split).
           reflexivity.
    + apply rpartition_None in E. destruct (Ascii.eqb_spec d c) as [->|Hne].
      * split.
        -- intros [= <- <-]. now split.
        -- intros [Hs Ht]. destruct h as [|d' h]; simpl in Hs.
           ++ now injection Hs as ->.
           ++ injection Hs as -> ->.
              rewrite contains_app_dot in E. discriminate.
      * split; [discriminate|]. intros [Hs Ht].
        destruct h as [|d' h]; simpl in Hs; injection Hs as -> Hs.
        -- congruence.
        -- subst s. rewrite contains_app_dot in E. discriminate.
Qed.

Lemma contains_rpartition (c : ascii) (s : string) :
  PyStr.contains c s = true -> exists h t, PyStr.rpartition c s = Some (h, t).
Proof.
  intros H. destruct (PyStr.rpartition c s) as [[h t]|] eqn:E; [eauto|].
  apply rpartition_None in E. congruence.
Qed.

(** The text before the last dot, or the whole name when it has none:
    what [name.rsplit('.', 1)[0]] evaluates to. *)
Lemma rsplit1_index_0 (s : string) :
  py_index (PyStr.rsplit1 "." s) 0 =
  Return (match PyStr.rpartition "." s with Some (h, _) => h | None => s end).
Proof.
  unfold PyStr.rsplit1. now destruct (PyStr.rpartition "." s) as [[h t]|].
Qed.

Lemma elem_of_ALLOWED_EXTENSIONS (x : string) :
  x ∈ ALLOWED_EXTENSIONS <-> In x ["mp4"; "avi"; "mov"; "wmv"; "flv"; "mkv"].
Proof. unfold ALLOWED_EXTENSIONS. set_unfold. simpl. intuition congruence. Qed.

Lemma is_allowed_file_true (self : VideoService) (filename : string) :
  _is_allowed_file self filename = Return true <->
  exists stem ext,
    filename = stem +:+ "." +:+ ext /\ PyStr.contains "." ext = false /\
    PyStr.lower ext ∈ allowed_extensions self.
Proof.
  unfold _is_allowed_file, PyStr.rsplit1.
  destruct (PyStr.contains "." filename) eqn:Hc.
  - destruct (contains_rpartition _ _ Hc) as (h & t & E). rewrite E. simpl.
    apply rpartition_Some in E as [-> Ht]. split.
    + intros [= H]. apply bool_decide_eq_true in H. now exists h, t.
    + intros (stem & ext & Hs & Hd & Hin).
      assert (Some (h, t) = Some (stem, ext)) as [= -> ->].
      { rewrite <- (proj2 (rpartition_Some "." (h +:+ "." +:+ t) h t)) by now split.
        apply rpartition_Some. now split. }
      f_equal. now apply bool_decide_eq_true.
  - split; [discriminate|]. intros (stem & ext & -> & _ & _).
    rewrite contains_dot_app in Hc. discriminate.
Qed.

Lemma is_allowed_file_total (self : VideoService) (filename : string) :
  exists b, _is_allowed_file self filename = Return b.
Proof.
  unfold _is_allowed_file, PyStr.rsplit1.
  destruct (PyStr.contains "." filename) eqn:Hc; [|eauto].
  destruct (contains_rpartition _ _ Hc) as (h & t & ->). simpl. eauto.
Qed.

(** C8. The extension check never raises, and it accepts a declared file
    name exactly when the name contains a dot and the text after its last
    dot, lowercased, is one of mp4, avi, mov, wmv, flv, mkv. *)
Theorem is_allowed_file_iff (filename : string) :
  (exists b, _is_allowed_file video_service filename = Return b) /\
  (_is_allowed_file video_service filename = Return true <->
   PyStr.contains "." filename = true /\
   exists stem ext,
     filename = stem +:+ "." +:+ ext /\ PyStr.contains "." ext = false /\
     In (PyStr.lower ext) ["mp4"; "avi"; "mov"; "wmv"; "flv"; "mkv"]).
Proof.
  split; [apply is_allowed_file_total|].
  rewrite is_allowed_file_true. simpl allowed_extensions. split.
  - intros (stem & ext & -> & Hd & Hin). split.
    + apply contains_dot_app.
    + exists stem, ext. repeat split; try assumption.
      now apply elem_of_ALLOWED_EXTENSIONS.
  - intros (_ & stem & ext & -> & Hd & Hin). exists stem, ext.
    repeat split; try assumption. now apply elem_of_ALLOWED_EXTENSIONS.
Qed.

(** ** Thumbnail extraction *)

Section MediaProperties.

Variable VideoFileClip : string -> option data -> result VideoClip.
Variable imageio_get_reader : string -> option data -> result Reader.

Local Abbreviation via_moviepy := (thumbnail_via_moviepy VideoFileClip).
Local Abbreviation via_imageio := (thumbnail_via_imageio imageio_get_reader).
Local Abbreviation gen_thumbnail := (generate_thumbnail VideoFileClip imageio_get_reader).
Local Abbreviation save := (save_video VideoFileClip imageio_get_reader).
Local Abbreviation save_with := (save_video_with VideoFileClip imageio_get_reader).
Local Abbreviation upload_handler := (upload VideoFileClip imageio_get_reader).

Lemma py_min_Qmin (a b : Q) : py_min a b = Qmin a b.
Proof.
  unfold py_min, Qmin, GenericMinMax.gmin.
  rewrite <- (Qcompare_antisym a b). now destruct (a ?= b)%Q.
Qed.

Lemma via_moviepy_outcome (video_path thumbnail_path : string) (w : World) :
  media_frame w (fst (via_moviepy video_path thumbnail_path w)) /\
  (snd (via_moviepy video_path thumbnail_path w) = Return true \/
   exists e, snd (via_moviepy video_path thumbnail_path w) = Raise e).
Proof.
  unfold thumbnail_via_moviepy, open_clip, media_frame. unfold_monad. simpl.
  repeat case_match; simplify_eq; simpl; eauto 10.
Qed.

Lemma via_imageio_outcome (video_path thumbnail_path : string) (e : exn) (w : World) :
  media_frame w (fst (via_imageio video_path thumbnail_path e w)) /\
  (snd (via_imageio video_path thumbnail_path e w) = Return true \/
   exists e', snd (via_imageio video_path thumbnail_path e w) = Raise e').
Proof.
  unfold thumbnail_via_imageio, open_reader, media_frame. unfold_monad. simpl.
  repeat case_match; simplify_eq; simpl; eauto 10.
Qed.

(** [generate_thumbnail] in terms of its two blocks. *)
Lemma generate_thumbnail_unfold (self : VideoService)
    (video_path thumbnail_path : string) (w : World) :
  gen_thumbnail self video_path thumbnail_path w =
  match via_moviepy video_path thumbnail_path w with
  | (w1, Return b) => (w1, Return b)
  | (w1, Raise e1) =>
      match via_imageio video_path thumbnail_path e1 w1 with
      | (w2, Return b) => (w2, Return b)
      | (w2, Raise e2) =>
          (set_stdout (fun out => (out ++ ["Thumbnail generation failed: " +:+ str e2])%list) w2,
           Raise (ThumbnailGenerationError ("Failed to generate thumbnail: " +:+ str e2)))
      end
  end.
Proof.
  unfold generate_thumbnail, try_except, is_Exception.
  destruct (via_moviepy video_path thumbnail_path w) as [w1 [b|e1]]; [reflexivity|].
  destruct (via_imageio video_path thumbnail_path e1 w1) as [w2 [b|e2]]; reflexivity.
Qed.

Lemma generate_thumbnail_outcome (self : VideoService)
    (video_path thumbnail_path : string) (w : World) :
  media_frame w (fst (gen_thumbnail self video_path thumbnail_path w)) /\
  (snd (gen_thumbnail self video_path thumbnail_path w) = Return true \/
   exists msg, snd (gen_thumbnail self video_path thumbnail_path w) =
               Raise (ThumbnailGenerationError msg)).
Proof.
  rewrite generate_thumbnail_unfold.
  pose proof (via_moviepy_outcome video_path thumbnail_path w) as [F1 R1].
  destruct (via_moviepy video_path thumbnail_path w) as [w1 [b|e1]]; simpl in *.
  - split; [exact F1|]. destruct R1 as [R1|[e R1]]; [now left | discriminate].
  - pose proof (via_imageio_outcome video_path thumbnail_path e1 w1) as [F2 R2].
    destruct (via_imageio video_path thumbnail_path e1 w1) as [w2 [b|e2]]; simpl in *.
    + split.
      * unfold media_frame in *. intuition congruence.
      * destruct R2 as [R2|[e R2]]; [now left | discriminate].
    + split; [|right; eauto].
      unfold media_frame in *. simpl. intuition congruence.
Qed.


Lemma generate_thumbnail_not_False (self : VideoService)
    (video_path thumbnail_path : string) (w w' : World) :
  gen_thumbnail self video_path thumbnail_path w <> (w', Return false).
Proof.
  intros H.
  destruct (generate_thumbnail_outcome self video_path thumbnail_path w) as [_ R].
  rewrite H in R. simpl in R. destruct R as [R|[msg R]]; discriminate.
Qed.

(** ** Ingestion *)

(** [save_video] case by case.  A falsy return of [generate_thumbnail]
    does not occur, so the statement that would follow it plays no part. *)
Lemma save_video_with_unfold (other : M (option string * World) (string * string))
    (self : VideoService) (video_file : option FileStorage.t)
    (title : option string) (w : World) :
  save_with other self video_file title w =
  match video_file with
  | None => (w, Raise (UnboundLocalError "video_path"))
  | Some f =>
      if String.eqb (FileStorage.filename f) "" then
        (w, Raise (UnboundLocalError "video_path"))
      else
        match _is_allowed_file self (FileStorage.filename f) with
        | Return true =>
            match FileStorage_save f (video_path_of self w f) w with
            | (w0, Return _) =>
                match gen_thumbnail self (video_path_of self w f)
                        (thumbnail_path_of self w f) w0 with
                | (w1, Return _) =>
                    (w1, Return (storage_name (utcnow w) (FileStorage.filename f),
                                 thumbnail_name
                                   (storage_name (utcnow w) (FileStorage.filename f))))
                | (w1, Raise e) => cleanup (video_path_of self w f) e w1
                end
            | (w0, Raise e) => cleanup (video_path_of self w f) e w0
            end
        | _ => (w, Raise (UnboundLocalError "video_path"))
        end
  end.
Proof.
  unfold save_video_with, call_frame, try_except, is_Exception.
  destruct video_file as [f|]; [|reflexivity].
  unfold FileStorage.truthy. rewrite negb_involutive, orb_diag.
  destruct (String.eqb (FileStorage.filename f) ""); [reflexivity|].
  unfold bind at 1. unfold ret at 1. unfold bind at 1. unfold lift_result at 1.
  destruct (_is_allowed_file self (FileStorage.filename f)) as [[|]|e];
    [|reflexivity|reflexivity].
  unfold_monad. cbn [fst snd negb].
  rewrite rsplit1_index_0.
  fold (storage_name (utcnow w) (FileStorage.filename f)).
  fold (thumbnail_name (storage_name (utcnow w) (FileStorage.filename f))).
  fold (video_path_of self w f). fold (thumbnail_path_of self w f).
  destruct (bool_decide (video_path_of self w f ∈ read_only (fs w))); cbn [fst snd].
  - unfold cleanup, os_remove. cbn [fst snd].
    repeat (case_match; cbn [fst snd] in * ); simplify_eq; reflexivity.
  - set (w0 := set_fs _ w).
    destruct (gen_thumbnail self (video_path_of self w f)
                (thumbnail_path_of self w f) w0) as [w1 [[|]|e]] eqn:G;
      cbn [fst snd].
    + reflexivity.
    + exfalso. exact (generate_thumbnail_not_False _ _ _ _ _ G).
    + unfold cleanup, os_remove. cbn [fst snd].
      repeat (case_match; cbn [fst snd] in * ); simplify_eq; reflexivity.
Qed.

Lemma save_video_unfold (self : VideoService) (video_file : option FileStorage.t)
    (title : option string) (w : World) :
  save self video_file title w =
  match video_file with
  | None => (w, Raise (UnboundLocalError "video_path"))
  | Some f =>
      if String.eqb (FileStorage.filename f) "" then
        (w, Raise (UnboundLocalError "video_path"))
      else
        match _is_allowed_file self (FileStorage.filename f) with
        | Return true =>
            match FileStorage_save f (video_path_of self w f) w with
            | (w0, Return _) =>
                match gen_thumbnail self (video_path_of self w f)
                        (thumbnail_path_of self w f) w0 with
                | (w1, Return _) =>
                    (w1, Return (storage_name (utcnow w) (FileStorage.filename f),
                                 thumbnail_name
                                   (storage_name (utcnow w) (FileStorage.filename f))))
                | (w1, Raise e) => cleanup (video_path_of self w f) e w1
                end
            | (w0, Raise e) => cleanup (video_path_of self w f) e w0
            end
        | _ => (w, Raise (UnboundLocalError "video_path"))
        end
  end.
Proof. apply save_video_with_unfold. Qed.

(** C10. [generate_thumbnail] either returns [True] or raises
    [ThumbnailGenerationError]; so the statement of [save_video] that
    follows a falsy return never runs: replacing it by any other
    statement leaves [save_video] unchanged. *)
Theorem generate_thumbnail_never_falsy (self : VideoService)
    (video_path thumbnail_path : string) (w : World)
    (other : M (option string * World) (string * string))
    (video_file : option FileStorage.t) (title : option string) :
  (snd (gen_thumbnail self video_path thumbnail_path w) = Return true \/
   exists msg, snd (gen_thumbnail self video_path thumbnail_path w) =
               Raise (ThumbnailGenerationError msg)) /\
  save_with other self video_file title w = save self video_file title w.
Proof.
  split; [apply generate_thumbnail_outcome|].
  unfold save_video. now rewrite !save_video_with_unfold.
Qed.

Lemma cleanup_raises (video_path : string) (e : exn) (w : World) :
  exists e', snd (cleanup video_path e w) = Raise e'.
Proof.
  unfold cleanup, os_remove.
  repeat (case_match; cbn [fst snd] in * ); simplify_eq; eauto.
Qed.

(** The handler on an asset that can be removed: afterwards the asset is
    gone and the error is the wrapped one. *)
Lemma cleanup_unlocked (video_path : string) (e : exn) (w : World) :
  video_path ∉ locked (fs w) ->
  exists w',
    cleanup video_path e w =
      (w', Raise (VideoUploadError ("Failed to upload video: " +:+ str e))) /\
    files (fs w') !! video_path = None /\
    db w' = db w /\ flashes w' = flashes w.
Proof.
  intros Hl. unfold cleanup, os_remove.
  rewrite (bool_decide_eq_false_2 _ Hl).
  destruct (bool_decide (is_Some (files (fs w) !! video_path))) eqn:Hp.
  - eexists. split; [reflexivity|]. simpl. split; [|easy].
    apply lookup_delete_eq.
  - eexists. split; [reflexivity|]. split; [|easy].
    apply bool_decide_eq_false in Hp. now apply eq_None_not_Some.
Qed.

Lemma FileStorage_save_Return (file : FileStorage.t) (path : string) (w w0 : World) :
  FileStorage_save file path w = (w0, Return tt) ->
  (path ∉ read_only (fs w)) /\
  w0 = set_fs (fun f => mk_FS (<[path := FileStorage.stream file]> (files f))
                              (locked f) (read_only f)) w.
Proof.
  unfold FileStorage_save, write_file.
  destruct (bool_decide (path ∈ read_only (fs w))) eqn:Hl; [discriminate|].
  intros [= <-]. split; [|reflexivity]. now apply bool_decide_eq_false in Hl.
Qed.

Lemma allowed_filename_nonempty (self : VideoService) (filename : string) :
  _is_allowed_file self filename = Return true -> String.eqb filename "" = false.
Proof.
  intros H. apply is_allowed_file_true in H as (stem & ext & -> & _).
  now destruct stem.
Qed.

Lemma contains_app_r (c : ascii) (a b : string) :
  PyStr.contains c b = true -> PyStr.contains c (a +:+ b) = true.
Proof.
  intros H. induction a as [|d a IH]; simpl; [exact H|].
  now destruct (Ascii.eqb d c).
Qed.

Lemma cleanup_frame (video_path : string) (e : exn) (w : World) :
  db (fst (cleanup video_path e w)) = db w /\
  flashes (fst (cleanup video_path e w)) = flashes w /\
  locked (fs (fst (cleanup video_path e w))) = locked (fs w) /\
  forall p, p <> video_path ->
    files (fs (fst (cleanup video_path e w))) !! p = files (fs w) !! p.
Proof.
  unfold cleanup, os_remove.
  repeat (case_match; cbn [fst snd] in * ); simplify_eq; simpl;
    repeat split; try done.
  intros p Hp. now rewrite lookup_delete_ne.
Qed.

(** C1, as the code has it.  When the upload is accepted and persisted
    but both the moviepy block and the imageio fallback raise, [upload]
    leaves the tables as they were, so no record is created.  When, in
    addition, the asset just written does not refuse removal,
    [save_video] raises [VideoUploadError] whose message wraps the text
    of the fallback's error, the asset is gone from the asset store, and
    [upload] answers with a redirect. *)
Theorem thumbnail_failure_cleanup (current_user : User.t) (request_url : string)
    (file : FileStorage.t) (title : option string)
    (w w0 w1 w2 : World) (e1 e2 : exn) :
  User.is_superuser current_user = true ->
  _is_allowed_file video_service (FileStorage.filename file) = Return true ->
  FileStorage_save file (video_path_of video_service w file) w = (w0, Return tt) ->
  via_moviepy (video_path_of video_service w file)
    (thumbnail_path_of video_service w file) w0 = (w1, Raise e1) ->
  via_imageio (video_path_of video_service w file)
    (thumbnail_path_of video_service w file) e1 w1 = (w2, Raise e2) ->
  (exists w4 outcome,
     upload_handler current_user "POST" request_url (Some file) title w = (w4, outcome) /\
     db w4 = db w) /\
  (video_path_of video_service w file ∉ locked (fs w) ->
   exists w3 w4,
     save video_service (Some file) title w =
       (w3, Raise (VideoUploadError
                     ("Failed to upload video: Failed to generate thumbnail: "
                      +:+ str e2))) /\
     files (fs w3) !! video_path_of video_service w file = None /\
     upload_handler current_user "POST" request_url (Some file) title w =
       (w4, Return (Redirect request_url)) /\
     files (fs w4) !! video_path_of video_service w file = None /\
     db w4 = db w).
Proof.
  intros Hsuper Hallowed Hsave Hprimary Hfallback.
  destruct (FileStorage_save_Return _ _ _ _ Hsave) as [_ Hw0].
  pose proof (via_moviepy_outcome (video_path_of video_service w file)
                (thumbnail_path_of video_service w file) w0) as [F1 _].
  pose proof (via_imageio_outcome (video_path_of video_service w file)
                (thumbnail_path_of video_service w file) e1 w1) as [F2 _].
  rewrite Hprimary in F1. rewrite Hfallback in F2. simpl in F1, F2.
  destruct F1 as (L1 & D1 & _ & X1). destruct F2 as (L2 & D2 & _ & X2).
  set (w2' := set_stdout
                (fun out => (out ++ ["Thumbnail generation failed: " +:+ str e2])%list) w2).
  set (cause := ThumbnailGenerationError ("Failed to generate thumbnail: " +:+ str e2)).
  assert (Hrun : save video_service (Some file) title w =
                 cleanup (video_path_of video_service w file) cause w2').
  { rewrite save_video_unfold, (allowed_filename_nonempty _ _ Hallowed), Hallowed, Hsave.
    now rewrite generate_thumbnail_unfold, Hprimary, Hfallback. }
  assert (Hdb2 : db w2' = db w).
  { subst w2'. simpl. rewrite D2, D1, Hw0. reflexivity. }
  assert (Hup : upload_handler current_user "POST" request_url (Some file) title w =
                match cleanup (video_path_of video_service w file) cause w2' with
                | (w3, Return names) => (w3, Return (Redirect "home"))
                | (w3, Raise e) =>
                    if is_VideoUploadError e then
                      (set_flashes (fun fl => (fl ++ [str e])%list) w3,
                       Return (Redirect request_url))
                    else (w3, Raise e)
                end).
  { unfold upload. rewrite Hsuper. cbn [negb].
    change (String.eqb "POST" "POST") with true. cbv iota.
    unfold try_except. unfold bind at 1. unfold ret at 1. unfold bind at 1.
    rewrite Hrun.
    destruct (cleanup_raises (video_path_of video_service w file) cause w2') as [e' He'].
    destruct (cleanup (video_path_of video_service w file) cause w2') as [w3 r3].
    simpl in He'. subst r3. reflexivity. }
  split.
  - rewrite Hup.
    destruct (cleanup_frame (video_path_of video_service w file) cause w2') as (Dc & _).
    destruct (cleanup (video_path_of video_service w file) cause w2') as [w3 [names|e]];
      cbn [fst] in Dc.
    + do 2 eexists. split; [reflexivity|]. now rewrite Dc.
    + destruct (is_VideoUploadError e); do 2 eexists; (split; [reflexivity|]);
        cbn [db set_flashes]; now rewrite Dc.
  - intros Hl.
    destruct (cleanup_unlocked (video_path_of video_service w file) cause w2')
      as (w3 & Hc & Hgone & Hdb & Hfl).
    { subst w2'. simpl. rewrite L2, L1, Hw0. exact Hl. }
    exists w3, (set_flashes (fun fl => (fl ++ ["Failed to upload video: Failed to generate thumbnail: " +:+ str e2])%list) w3).
    split; [now rewrite Hrun|]. split; [exact Hgone|].
    split; [rewrite Hup, Hc; reflexivity|].
    split; [exact Hgone|]. cbn [db set_flashes]. now rewrite Hdb.
Qed.

(** A rejected upload never reaches the assignment of [video_path]: the
    handler's read of that variable raises, and nothing has been written. *)
Lemma save_video_rejected (self : VideoService) (video_file : option FileStorage.t)
    (title : option string) (w : World) :
  match video_file with
  | None => True
  | Some f =>
      FileStorage.filename f = "" \/
      _is_allowed_file self (FileStorage.filename f) = Return false
  end ->
  save self video_file title w = (w, Raise (UnboundLocalError "video_path")).
Proof.
  rewrite save_video_unfold. destruct video_file as [f|]; [|reflexivity].
  intros [->|H]; [reflexivity|]. rewrite H.
  now destruct (String.eqb (FileStorage.filename f) "").
Qed.

(** C9. A successful ingestion of a file declared as F, at clock reading
    T, returns as storage name the text of T in the format
    [%Y%m%d_%H%M%S], an underscore, then F; and as thumbnail name
    [thumb_], the storage name up to its last dot, then [.jpg]. *)
Theorem save_video_names (self : VideoService) (file : FileStorage.t)
    (title : option string) (w w' : World) (filename thumbnail_filename : string) :
  save self (Some file) title w = (w', Return (filename, thumbnail_filename)) ->
  filename = strftime_Ymd_HMS (utcnow w) +:+ "_" +:+ FileStorage.filename file /\
  exists stem ext,
    filename = stem +:+ "." +:+ ext /\ PyStr.contains "." ext = false /\
    thumbnail_filename = "thumb_" +:+ stem +:+ ".jpg".
Proof.
  rewrite save_video_unfold.
  destruct (String.eqb (FileStorage.filename file) ""); [discriminate|].
  destruct (_is_allowed_file self (FileStorage.filename file)) as [[|]|e] eqn:Ha;
    try discriminate.
  destruct (FileStorage_save file (video_path_of self w file) w) as [w0 [[]|e]].
  - destruct (gen_thumbnail self _ _ w0) as [w1 [b|e]].
    + intros [= <- <- <-]. split; [reflexivity|].
      apply is_allowed_file_true in Ha as (stem & ext & Hf & _).
      assert (Hdot : PyStr.contains "."
                       (storage_name (utcnow w) (FileStorage.filename file)) = true).
      { unfold storage_name. rewrite Hf.
        do 2 apply contains_app_r. apply contains_dot_app. }
      destruct (contains_rpartition _ _ Hdot) as (h & t & Hr).
      unfold thumbnail_name. rewrite Hr.
      apply rpartition_Some in Hr as [Hs Ht]. exists h, t.
      split; [exact Hs|]. split; [exact Ht|reflexivity].
    + intros H. destruct (cleanup_raises (video_path_of self w file) e w1) as [e' He].
      rewrite H in He. discriminate.
  - intros H. destruct (cleanup_raises (video_path_of self w file) e w0) as [e' He].
    rewrite H in He. discriminate.
Qed.

End MediaProperties.

(** ** Accounts *)

Lemma find_app_None {A} (f : A -> bool) (l1 l2 : list A) :
  find f l1 = None -> find f (l1 ++ l2) = find f l2.
Proof.
  induction l1 as [|x l1 IH]; simpl; [reflexivity|].
  destruct (f x); [discriminate | exact IH].
Qed.

Lemma find_none_existsb (name : string) (us : list User.t) :
  find (fun u => String.eqb (User.username u) name) us = None ->
  existsb (fun u => String.eqb (User.username u) name) us = false.
Proof.
  induction us as [|u us IH]; simpl; [reflexivity|].
  destruct (String.eqb (User.username u) name); [discriminate | exact IH].
Qed.

Lemma find_some_username (name : string) (us : list User.t) (row : User.t) :
  find (fun u => String.eqb (User.username u) name) us = Some row ->
  In row us /\ User.username row = name.
Proof.
  intros H. apply find_some in H as [Hin Heq]. split; [exact Hin|].
  now apply String.eqb_eq.
Qed.

Lemma count_username_absent (name : string) (us : list User.t) :
  ~ In name (map User.username us) -> count_username name us = 0.
Proof.
  unfold count_username. induction us as [|u us IH]; simpl; [reflexivity|].
  intros H. destruct (String.eqb_spec (User.username u) name) as [E|E].
  - destruct H. now left.
  - apply IH. intros Hin. apply H. now right.
Qed.

Lemma find_none_absent (name : string) (us : list User.t) :
  find (fun u => String.eqb (User.username u) name) us = None ->
  ~ In name (map User.username us).
Proof.
  induction us as [|u us IH]; simpl; [tauto|].
  destruct (String.eqb_spec (User.username u) name) as [E|E]; [discriminate|].
  intros H [H'|H']; [contradiction | now apply IH].
Qed.

Lemma absent_find_none (name : string) (us : list User.t) :
  ~ In name (map User.username us) ->
  find (fun u => String.eqb (User.username u) name) us = None.
Proof.
  induction us as [|u us IH]; simpl; [reflexivity|].
  intros H. destruct (String.eqb_spec (User.username u) name) as [E|E].
  - destruct H. now left.
  - apply IH. intros Hin. apply H. now right.
Qed.

Lemma count_username_app (name : string) (us vs : list User.t) :
  count_username name (us ++ vs) = count_username name us + count_username name vs.
Proof. unfold count_username. now rewrite List.filter_app, length_app. Qed.

(** Under the unique constraint a name that is found is carried by
    exactly one row. *)
Lemma count_username_unique (name : string) (us : list User.t) (row : User.t) :
  NoDup (map User.username us) ->
  find (fun u => String.eqb (User.username u) name) us = Some row ->
  count_username name us = 1.
Proof.
  induction us as [|u us IH]; simpl; [discriminate|].
  intros Hnd Hf. apply NoDup_cons in Hnd as [Hnotin Hnd].
  unfold count_username in *. simpl.
  destruct (String.eqb_spec (User.username u) name) as [E|E].
  - simpl. f_equal. apply (count_username_absent name us).
    rewrite <- E. intros Hin. apply Hnotin. now apply list_elem_of_In.
  - now apply IH.
Qed.

Section AccountProperties.

Variable generate_password_hash : string -> string -> string.
Variable check_password_hash : string -> string -> bool.

Local Abbreviation create := (create_user generate_password_hash).
Local Abbreviation authenticate := (authenticate_user check_password_hash).

(** C5. With a password shorter than 8 characters [create_user] raises
    [AuthenticationError] and the [user] table is left as it was, in
    every state of the table, so whether or not the name is taken. *)
Theorem create_user_short_password (username password salt : string) (w : World) :
  (String.length password < 8)%nat ->
  exists w',
    create username password salt w =
      (w', Raise (AuthenticationError
                    "Failed to create user: Password must be at least 8 characters long")) /\
    users (db w') = users (db w) /\ videos (db w') = videos (db w).
Proof.
  intros H. apply Nat.ltb_lt in H.
  unfold create_user. unfold_monad. rewrite H. cbn [fst snd].
  eexists. split; [reflexivity|]. split; reflexivity.
Qed.

Lemma create_user_taken (username password salt : string) (w : World) (row : User.t) :
  (8 <= String.length password)%nat ->
  find (fun u => String.eqb (User.username u) username) (users (db w)) = Some row ->
  create username password salt w =
    (set_db (fun d => mk_Db (users d) (videos d) []) w,
     Raise (AuthenticationError "Failed to create user: Username already exists")).
Proof.
  intros Hp Hf. apply Nat.ltb_ge in Hp.
  unfold create_user. unfold_monad. rewrite Hp, Hf. reflexivity.
Qed.

Lemma create_user_fresh (username password salt : string) (w : World) :
  (8 <= String.length password)%nat ->
  session (db w) = [] ->
  find (fun u => String.eqb (User.username u) username) (users (db w)) = None ->
  exists w' row,
    create username password salt w = (w', Return row) /\
    users (db w') = (users (db w) ++ [row])%list /\
    User.username row = username /\
    videos (db w') = videos (db w) /\ session (db w') = [].
Proof.
  intros Hp Hs Hf. apply Nat.ltb_ge in Hp.
  set (row := User.mk (next_id (map User.id (users (db w)))) username
                (generate_password_hash salt password) false).
  exists (set_db (fun d => mk_Db (users d ++ [row]) (videos d) []) w), row.
  split; [|easy].
  unfold create_user. unfold_monad. rewrite Hp, Hf. cbn [fst snd db set_db session].
  rewrite Hs. cbn [app flush flush_one users videos].
  rewrite (find_none_existsb _ _ Hf). cbn [fst snd db set_db users].
  rewrite (find_app_None _ _ _ Hf). cbn [find User.username].
  rewrite String.eqb_refl. reflexivity.
Qed.

(** [create_user] keeps a state at rest. *)
Lemma create_user_at_rest (username password salt : string) (w : World) :
  at_rest w -> at_rest (fst (create username password salt w)).
Proof.
  intros [Hs Hnd].
  destruct (Nat.ltb_spec (String.length password) 8) as [Hp|Hp].
  - unfold create_user. unfold_monad.
    rewrite (proj2 (Nat.ltb_lt _ _) Hp). now split.
  - destruct (find (fun u => String.eqb (User.username u) username) (users (db w)))
      as [row|] eqn:Hf.
    + rewrite (create_user_taken _ _ _ _ row Hp Hf). now split.
    + destruct (create_user_fresh username password salt w Hp Hs Hf)
        as (w' & row & Hc & Hu & Hn & _ & Hs').
      rewrite Hc. split; [exact Hs'|]. simpl. rewrite Hu, map_app. simpl.
      apply NoDup_app. split; [exact Hnd|]. split.
      * intros x Hx Hin. apply list_elem_of_In in Hin as [E|[]].
        rewrite <- E, Hn in Hx.
        apply (find_none_absent _ _ Hf). now apply list_elem_of_In.
      * apply NoDup_singleton.
Qed.

(** C6. From a state at rest, two calls of [create_user] with the same
    name and passwords of 8 characters or more: the second raises
    [AuthenticationError], and afterwards exactly one row carries the
    name. *)
Theorem create_user_twice (username p1 p2 s1 s2 : string) (w : World) :
  at_rest w ->
  (8 <= String.length p1)%nat ->
  (8 <= String.length p2)%nat ->
  exists w1 r1 w2 msg,
    create username p1 s1 w = (w1, r1) /\
    create username p2 s2 w1 = (w2, Raise (AuthenticationError msg)) /\
    count_username username (users (db w2)) = 1.
Proof.
  intros [Hs Hnd] H1 H2.
  destruct (find (fun u => String.eqb (User.username u) username) (users (db w)))
    as [row|] eqn:Hf.
  - do 4 eexists. split; [now apply (create_user_taken _ _ _ _ row)|].
    split; [now apply (create_user_taken _ _ _ _ row)|].
    simpl. now apply (count_username_unique _ _ row).
  - destruct (create_user_fresh username p1 s1 w H1 Hs Hf)
      as (w1 & row & Hc & Hu & Hn & _ & _).
    assert (Hf1 : find (fun u => String.eqb (User.username u) username)
                    (users (db w1)) = Some row).
    { rewrite Hu, (find_app_None _ _ _ Hf). simpl. now rewrite Hn, String.eqb_refl. }
    do 4 eexists. split; [exact Hc|].
    split; [now apply (create_user_taken _ _ _ _ row)|].
    simpl. rewrite Hu, count_username_app.
    rewrite (count_username_absent _ _ (find_none_absent _ _ Hf)).
    unfold count_username. simpl. now rewrite Hn, String.eqb_refl.
Qed.

(** C4. [authenticate_user] with a name that no row carries, and with a
    name whose row fails the digest comparison, raise
    [AuthenticationError] with one and the same message, whatever the
    passwords. *)
Theorem authenticate_user_same_message (absent present p1 p2 : string)
    (row : User.t) (w : World) :
  ~ In absent (map User.username (users (db w))) ->
  find (fun u => String.eqb (User.username u) present) (users (db w)) = Some row ->
  check_password_hash (User.password_hash row) p2 = false ->
  authenticate absent p1 w =
    (w, Raise (AuthenticationError "Authentication failed: Invalid username or password")) /\
  authenticate present p2 w =
    (w, Raise (AuthenticationError "Authentication failed: Invalid username or password")).
Proof.
  intros Habsent Hpresent Hcheck.
  assert (Hnone : find (fun u => String.eqb (User.username u) absent) (users (db w)) = None).
  { now apply absent_find_none. }
  unfold authenticate_user. unfold_monad.
  rewrite Hnone, Hpresent, Hcheck. split; reflexivity.
Qed.

End AccountProperties.

(** ** Deleting a video *)

Lemma not_blocked_cases (w : World) (path : string) :
  ~ blocked w path ->
  bool_decide (is_Some (files (fs w) !! path)) = false \/
  bool_decide (path ∈ locked (fs w)) = false.
Proof.
  intros H. unfold blocked in H.
  destruct (bool_decide (is_Some (files (fs w) !! path))) eqn:E1; [|now left].
  destruct (bool_decide (path ∈ locked (fs w))) eqn:E2; [|now right].
  apply bool_decide_eq_true in E1, E2. tauto.
Qed.

(** C3, as the code has it.  For a superuser deleting a stored record
    that has a thumbnail name, from an empty session, [delete_video]
    answers with a redirect.  When neither asset is one that exists and
    refuses removal, both assets are gone afterwards and the record is
    deleted.  When the video asset is such a one, the file system and the
    tables are left as they were.  When the thumbnail asset is such a
    one, the tables are left as they were. *)
Theorem delete_video_outcomes (current_user : User.t) (video_id : nat)
    (video : Video.t) (thumb : string) (w : World) :
  User.is_superuser current_user = true ->
  session (db w) = [] ->
  find (fun v => (Video.id v =? video_id)%nat) (videos (db w)) = Some video ->
  Video.thumbnail_filename video = Some thumb ->
  exists w',
    delete_video current_user video_id w = (w', Return (Redirect "home")) /\
    (~ blocked w (video_asset video) -> ~ blocked w (thumbnail_asset thumb) ->
     files (fs w') !! video_asset video = None /\
     files (fs w') !! thumbnail_asset thumb = None /\
     videos (db w') =
       List.filter (fun v => negb (Video.id v =? video_id)%nat) (videos (db w))) /\
    (blocked w (video_asset video) -> fs w' = fs w /\ db w' = db w) /\
    (blocked w (thumbnail_asset thumb) -> db w' = db w).
Proof.
  intros Hsuper Hs Hfind Hthumb.
  assert (Hid : Video.id video = video_id).
  { apply find_some in Hfind as [_ H]. now apply Nat.eqb_eq in H. }
  unfold delete_video. rewrite Hsuper. cbn [negb].
  unfold_monad. rewrite Hfind, Hthumb.
  fold (video_asset video). fold (thumbnail_asset thumb).
  cbn [fst snd].
  destruct (bool_decide (is_Some (files (fs w) !! video_asset video))) eqn:E1;
    [destruct (bool_decide (video_asset video ∈ locked (fs w))) eqn:L1|];
    cbn [fst snd set_fs set_db set_flashes fs db files locked session users videos utcnow];
    rewrite ?E1.
  all: repeat match goal with
       | |- context [bool_decide ?P] =>
           let E := fresh "E" in destruct (bool_decide P) eqn:E
       end;
       cbn [fst snd set_fs set_db set_flashes fs db files locked session users videos utcnow];
       rewrite ?Hs; cbn [app flush flush_one fst snd set_fs set_db set_flashes fs db files locked session users videos utcnow].
  all: (eexists; split; [reflexivity|]).
  all: cbn [fst snd set_fs set_db set_flashes fs db files locked session users videos utcnow].
  all: repeat match goal with
       | H : bool_decide _ = true |- _ => apply bool_decide_eq_true in H
       | H : bool_decide _ = false |- _ => apply bool_decide_eq_false in H
       end.
  all: unfold blocked; rewrite ?Hid.
  all: cbn [set_fs fs files locked] in *.
  all: repeat match goal with
       | H : is_Some (delete _ _ !! _) |- _ =>
           apply lookup_delete_is_Some in H as [? ?]
       | H : ¬ is_Some _ |- _ => apply eq_None_not_Some in H
       | H : delete _ _ !! _ = None |- _ => apply lookup_delete_None in H
       end.
  all: repeat split; intros; destruct_and?; try tauto.
  all: rewrite ?lookup_delete; repeat case_decide; try done.
  all: try solve [intuition (subst; try tauto; eauto)].
  all: exfalso.
  all: repeat match goal with
       | H : _ ∨ _ |- _ => destruct H
       | H : is_Some ?x, H' : ?x = None |- _ =>
           rewrite H' in H; apply is_Some_None in H
       | H : video_asset _ = thumbnail_asset _ |- _ => rewrite H in *
       end; tauto.
Qed.

(** * Concrete runs *)

(** Libraries that reject every file, on an accepted upload. *)
Lemma thumbnail_failure_cleanup_witness :
  exists w3 w4,
    save_video failing_VideoFileClip failing_get_reader video_service
      (Some cat_file) (Some "Cat Video") empty_world =
      (w3, Raise (VideoUploadError
                    ("Failed to upload video: Failed to generate thumbnail: "
                     +:+ "Could not find a backend to open the file"))) /\
    files (fs w3) !! video_path_of video_service empty_world cat_file = None /\
    upload failing_VideoFileClip failing_get_reader admin "POST" "/upload"
      (Some cat_file) (Some "Cat Video") empty_world =
      (w4, Return (Redirect "/upload")) /\
    files (fs w4) !! video_path_of video_service empty_world cat_file = None /\
    db w4 = db empty_world.
Proof.
  eapply (fun w0 w1 w2 e1 =>
            thumbnail_failure_cleanup failing_VideoFileClip failing_get_reader
              admin "/upload" cat_file (Some "Cat Video") empty_world w0 w1 w2 e1
              (LibraryError "Could not find a backend to open the file")).
  - reflexivity.
  - vm_compute. reflexivity.
  - reflexivity.
  - reflexivity.
  - reflexivity.
  - apply not_elem_of_empty.
Defined.

(** C1, as stated, fails.  The asset store accepts the write and refuses
    the removal, and both libraries reject the file: the handler's
    [os.remove] raises, so [save_video] raises that [OSError] and not
    [VideoUploadError], the asset just written is still in the store,
    and [upload] does not catch the error. *)
Lemma thumbnail_failure_asset_survives :
  exists w0 w1 w2 e1 e2 w',
    FileStorage_save cat_file (video_path_of video_service sticky_world cat_file)
      sticky_world = (w0, Return tt) /\
    thumbnail_via_moviepy failing_VideoFileClip
      (video_path_of video_service sticky_world cat_file)
      (thumbnail_path_of video_service sticky_world cat_file) w0 = (w1, Raise e1) /\
    thumbnail_via_imageio failing_get_reader
      (video_path_of video_service sticky_world cat_file)
      (thumbnail_path_of video_service sticky_world cat_file) e1 w1 = (w2, Raise e2) /\
    save_video failing_VideoFileClip failing_get_reader video_service
      (Some cat_file) (Some "Cat Video") sticky_world =
      (w', Raise (OSError "[Errno 13] Permission denied: 'static/uploads/20240309_140507_cat.mp4'")) /\
    files (fs w') !! video_path_of video_service sticky_world cat_file =
      Some (FileStorage.stream cat_file) /\
    upload failing_VideoFileClip failing_get_reader admin "POST" "/upload"
      (Some cat_file) (Some "Cat Video") sticky_world =
      (w', Raise (OSError "[Errno 13] Permission denied: 'static/uploads/20240309_140507_cat.mp4'")).
Proof.
  do 6 eexists.
  split; [reflexivity|]. split; [reflexivity|]. split; [reflexivity|].
  split; [vm_compute; reflexivity|]. split; vm_compute; reflexivity.
Qed.

(** C2, on the code.  An upload with a disallowed extension, with an
    empty file name, or with no file at all makes [save_video] raise
    [UnboundLocalError] from its handler, not [VideoUploadError]; the
    world, and so the asset store, is unchanged; [upload] does not catch
    the error. *)
Theorem rejected_upload_raises_UnboundLocalError :
  save_video decoding_VideoFileClip decoding_get_reader video_service
    (Some notes_file) (Some "Notes") empty_world =
    (empty_world, Raise (UnboundLocalError "video_path")) /\
  save_video decoding_VideoFileClip decoding_get_reader video_service
    (Some (FileStorage.mk "" [])) (Some "Notes") empty_world =
    (empty_world, Raise (UnboundLocalError "video_path")) /\
  save_video decoding_VideoFileClip decoding_get_reader video_service
    None (Some "Notes") empty_world =
    (empty_world, Raise (UnboundLocalError "video_path")) /\
  upload decoding_VideoFileClip decoding_get_reader admin "POST" "/upload"
    (Some notes_file) (Some "Notes") empty_world =
    (empty_world, Raise (UnboundLocalError "video_path")) /\
  is_VideoUploadError (UnboundLocalError "video_path") = false.
Proof.
  assert (Hnotes : save_video decoding_VideoFileClip decoding_get_reader video_service
                     (Some notes_file) (Some "Notes") empty_world =
                   (empty_world, Raise (UnboundLocalError "video_path"))).
  { apply save_video_rejected. right. vm_compute. reflexivity. }
  split; [exact Hnotes|].
  split; [apply save_video_rejected; now left|].
  split; [now apply save_video_rejected|].
  split; [|reflexivity].
  unfold upload. cbn [negb User.is_superuser admin].
  change (String.eqb "POST" "POST") with true. cbv iota.
  unfold try_except. unfold bind at 1. unfold ret at 1. unfold bind at 1.
  rewrite Hnotes. reflexivity.
Qed.

(** C3, as stated, fails.  The video asset refuses removal: the record is
    still in the table afterwards, and the thumbnail asset, which would
    have accepted removal, is still in the store. *)
Lemma delete_video_locked_asset_keeps_record :
  exists w',
    delete_video admin 1 locked_world = (w', Return (Redirect "home")) /\
    find (fun v => (Video.id v =? 1)%nat) (videos (db w')) = Some cat_video /\
    files (fs w') !! cat_thumbnail_path = Some sample_frame /\
    bool_decide (cat_thumbnail_path ∈ locked (fs w')) = false /\
    flashes w' =
      ["Error deleting video: [Errno 13] Permission denied: 'static/uploads/20240309_140507_cat.mp4'"].
Proof.
  exists (set_flashes
            (fun _ => ["Error deleting video: [Errno 13] Permission denied: 'static/uploads/20240309_140507_cat.mp4'"])
            locked_world).
  repeat split; vm_compute; reflexivity.
Qed.

(** Deleting the stored video of [stored_world]. *)
Lemma delete_video_outcomes_witness :
  exists w',
    delete_video admin 1 stored_world = (w', Return (Redirect "home")) /\
    (~ blocked stored_world (video_asset cat_video) ->
     ~ blocked stored_world (thumbnail_asset "thumb_20240309_140507_cat.jpg") ->
     files (fs w') !! video_asset cat_video = None /\
     files (fs w') !! thumbnail_asset "thumb_20240309_140507_cat.jpg" = None /\
     videos (db w') =
       List.filter (fun v => negb (Video.id v =? 1)%nat) (videos (db stored_world))) /\
    (blocked stored_world (video_asset cat_video) ->
     fs w' = fs stored_world /\ db w' = db stored_world) /\
    (blocked stored_world (thumbnail_asset "thumb_20240309_140507_cat.jpg") ->
     db w' = db stored_world).
Proof.
  apply (delete_video_outcomes admin 1 cat_video "thumb_20240309_140507_cat.jpg"
           stored_world); reflexivity.
Defined.

(** In [stored_world] no asset is blocked, so the first case applies. *)
Lemma stored_world_not_blocked (path : string) : ~ blocked stored_world path.
Proof. intros [_ H]. simpl in H. set_solver. Qed.

(** The upload of cat.mp4 at [sample_time]. *)
Lemma save_video_names_witness :
  "20240309_140507_cat.mp4" = strftime_Ymd_HMS sample_time +:+ "_" +:+ "cat.mp4" /\
  exists stem ext,
    "20240309_140507_cat.mp4" = stem +:+ "." +:+ ext /\
    PyStr.contains "." ext = false /\
    "thumb_20240309_140507_cat.jpg" = "thumb_" +:+ stem +:+ ".jpg".
Proof.
  eapply (save_video_names decoding_VideoFileClip decoding_get_reader video_service
            cat_file (Some "Cat Video") empty_world _
            "20240309_140507_cat.mp4" "thumb_20240309_140507_cat.jpg").
  reflexivity.
Defined.

(** A seven-character password, for a name that is taken. *)
Lemma create_user_short_password_witness :
  exists w',
    create_user sample_hash "bob" "hunter2" "s2" registered_world =
      (w', Raise (AuthenticationError
                    "Failed to create user: Password must be at least 8 characters long")) /\
    users (db w') = users (db registered_world) /\
    videos (db w') = videos (db registered_world).
Proof.
  apply (create_user_short_password sample_hash "bob" "hunter2" "s2" registered_world).
  simpl. lia.
Defined.

(** Two registrations of one new name. *)
Lemma create_user_twice_witness :
  exists w1 r1 w2 msg,
    create_user sample_hash "carol" "first password" "s3" registered_world = (w1, r1) /\
    create_user sample_hash "carol" "second password" "s4" w1 =
      (w2, Raise (AuthenticationError msg)) /\
    count_username "carol" (users (db w2)) = 1.
Proof.
  apply (create_user_twice sample_hash "carol" "first password" "second password"
           "s3" "s4" registered_world).
  - split; [reflexivity|]. simpl.
    repeat constructor; simpl; intros H; set_unfold; intuition discriminate.
  - simpl. lia.
  - simpl. lia.
Defined.

(** An unknown name, and a known name with a wrong password. *)
Lemma authenticate_user_same_message_witness :
  authenticate_user sample_check "mallory" "guess" registered_world =
    (registered_world,
     Raise (AuthenticationError "Authentication failed: Invalid username or password")) /\
  authenticate_user sample_check "bob" "guess" registered_world =
    (registered_world,
     Raise (AuthenticationError "Authentication failed: Invalid username or password")).
Proof.
  apply (authenticate_user_same_message sample_check "mallory" "bob" "guess" "guess"
           bob registered_world).
  - simpl. intuition discriminate.
  - reflexivity.
  - reflexivity.
Defined.

(** The three ways through [generate_thumbnail]: the first block
    succeeds, on a clip of half a second; the fallback succeeds; both
    fail. *)
Example generate_thumbnail_runs :
  (let r := generate_thumbnail short_VideoFileClip failing_get_reader video_service
              "v.mp4" "t.jpg" empty_world in
   snd r = Return true /\
   calls (fst r) = [Call_VideoFileClip "v.mp4"; Call_save_frame "t.jpg" (1 # 2);
                    Call_clip_close]) /\
  (let r := generate_thumbnail failing_VideoFileClip decoding_get_reader video_service
              cat_video_path cat_thumbnail_path stored_world in
   snd r = Return true /\
   calls (fst r) = [Call_VideoFileClip cat_video_path; Call_get_reader cat_video_path;
                    Call_get_data 0; Call_imwrite cat_thumbnail_path;
                    Call_reader_close]) /\
  (let r := generate_thumbnail failing_VideoFileClip failing_get_reader video_service
              cat_video_path cat_thumbnail_path stored_world in
   snd r = Raise (ThumbnailGenerationError
                    "Failed to generate thumbnail: Could not find a backend to open the file") /\
   calls (fst r) = [Call_VideoFileClip cat_video_path; Call_get_reader cat_video_path]).
Proof. repeat split; vm_compute; reflexivity. Qed.

(** * Further properties *)

(** ** File names *)

Lemma lower_char_idempotent (c : ascii) :
  PyStr.lower_char (PyStr.lower_char c) = PyStr.lower_char c.
Proof. destruct c as [[] [] [] [] [] [] [] []]; reflexivity. Qed.

Lemma lower_char_dot (c : ascii) :
  Ascii.eqb (PyStr.lower_char c) "." = Ascii.eqb c ".".
Proof. destruct c as [[] [] [] [] [] [] [] []]; reflexivity. Qed.

Lemma lower_idempotent (s : string) : PyStr.lower (PyStr.lower s) = PyStr.lower s.
Proof.
  induction s as [|c s IH]; simpl; [reflexivity|].
  now rewrite lower_char_idempotent, IH.
Qed.

Lemma contains_dot_lower (s : string) :
  PyStr.contains "." (PyStr.lower s) = PyStr.contains "." s.
Proof.
  induction s as [|c s IH]; simpl; [reflexivity|].
  now rewrite lower_char_dot, IH.
Qed.

(** The check on a name whose last dot is known. *)
Lemma is_allowed_file_ext (self : VideoService) (stem ext : string) :
  PyStr.contains "." ext = false ->
  _is_allowed_file self (stem +:+ "." +:+ ext) =
  Return (bool_decide (PyStr.lower ext ∈ allowed_extensions self)).
Proof.
  intros Hd. unfold _is_allowed_file, PyStr.rsplit1.
  rewrite contains_dot_app.
  now rewrite (proj2 (rpartition_Some "." (stem +:+ "." +:+ ext) stem ext) (conj eq_refl Hd)).
Qed.

(** X1.  The extension check looks at nothing but the text after the last dot,
    and not at its case: two names whose last extensions agree once
    lowercased get the same answer. *)
Theorem is_allowed_file_case_insensitive (self : VideoService)
    (stem stem' ext ext' : string) :
  PyStr.contains "." ext = false ->
  PyStr.contains "." ext' = false ->
  PyStr.lower ext = PyStr.lower ext' ->
  _is_allowed_file self (stem +:+ "." +:+ ext) =
  _is_allowed_file self (stem' +:+ "." +:+ ext').
Proof.
  intros Hd Hd' Hl. rewrite !is_allowed_file_ext by assumption. now rewrite Hl.
Qed.

Lemma is_allowed_file_case_insensitive_witness :
  _is_allowed_file video_service ("holiday" +:+ "." +:+ "MkV") =
  _is_allowed_file video_service ("a.b/c" +:+ "." +:+ "mkv").
Proof.
  apply (is_allowed_file_case_insensitive video_service "holiday" "a.b/c" "MkV" "mkv");
    reflexivity.
Defined.

Lemma string_app_assoc (a b c : string) : a +:+ b +:+ c = (a +:+ b) +:+ c.
Proof.
  induction a as [|x a IH]; [reflexivity|].
  change (String x (a +:+ b +:+ c) = String x ((a +:+ b) +:+ c)).
  f_equal. exact IH.
Qed.

Lemma thumbnail_name_ext (now : datetime) (stem ext : string) :
  PyStr.contains "." ext = false ->
  thumbnail_name (storage_name now (stem +:+ "." +:+ ext)) =
  "thumb_" +:+ (strftime_Ymd_HMS now +:+ "_" +:+ stem) +:+ ".jpg".
Proof.
  intros Hd. unfold thumbnail_name, storage_name.
  assert (E : strftime_Ymd_HMS now +:+ "_" +:+ stem +:+ "." +:+ ext =
              (strftime_Ymd_HMS now +:+ "_" +:+ stem) +:+ "." +:+ ext).
  { exact (string_app_assoc (strftime_Ymd_HMS now) ("_" +:+ stem) ("." +:+ ext)). }
  rewrite E.
  assert (R : PyStr.rpartition "." ((strftime_Ymd_HMS now +:+ "_" +:+ stem) +:+ "." +:+ ext)
              = Some (strftime_Ymd_HMS now +:+ "_" +:+ stem, ext)).
  { apply rpartition_Some. split; [reflexivity | exact Hd]. }
  now rewrite R.
Qed.

(** ** Paths of the configured service *)

Lemma digit_not_slash (n : nat) : PyStr.digit n <> "/"%char.
Proof.
  unfold PyStr.digit. pose proof (Nat.mod_upper_bound n 10 ltac:(lia)) as H.
  destruct (n mod 10) as [|[|[|[|[|[|[|[|[|[|k]]]]]]]]]]; try discriminate. lia.
Qed.

Lemma os_path_join_relative (a : string) (c : ascii) (rest : string) :
  c <> "/"%char ->
  os_path_join a (String c rest) =
  match last_char a with
  | None => String c rest
  | Some "/"%char => a +:+ String c rest
  | Some _ => a +:+ "/" +:+ String c rest
  end.
Proof.
  intros H. unfold os_path_join.
  destruct c as [[] [] [] [] [] [] [] []]; try reflexivity. now destruct H.
Qed.

Lemma storage_name_head (now : datetime) (declared : string) :
  exists c rest, storage_name now declared = String c rest /\ c <> "/"%char.
Proof.
  exists (PyStr.digit (year now / 1000)). eexists.
  split; [reflexivity | apply digit_not_slash].
Qed.

Lemma video_path_of_video_service (w : World) (file : FileStorage.t) :
  video_path_of video_service w file =
  "static/uploads/" +:+ storage_name (utcnow w) (FileStorage.filename file).
Proof.
  unfold video_path_of.
  destruct (storage_name_head (utcnow w) (FileStorage.filename file))
    as (c & rest & -> & Hc).
  now rewrite (os_path_join_relative _ _ _ Hc).
Qed.

Lemma thumbnail_path_of_video_service (w : World) (file : FileStorage.t) :
  thumbnail_path_of video_service w file =
  "static/thumbnails/" +:+
  thumbnail_name (storage_name (utcnow w) (FileStorage.filename file)).
Proof. reflexivity. Qed.

(** The two asset stores of the configured service never share a path. *)
Lemma video_service_paths_differ (w : World) (file : FileStorage.t) :
  video_path_of video_service w file <> thumbnail_path_of video_service w file.
Proof.
  rewrite video_path_of_video_service, thumbnail_path_of_video_service.
  intros H. cbv [String.append] in H. discriminate H.
Qed.

(** ** Deleting a video, continued *)

(** X11.  A video that is not in the table, or whose record has no thumbnail
    name: [delete_video] flashes the error and redirects to the home
    page, so a missing video is not answered with a 404; no file is
    removed and the tables are unchanged. *)
Theorem delete_video_missing_or_no_thumbnail (current_user : User.t)
    (video_id : nat) (w : World) :
  User.is_superuser current_user = true ->
  match find (fun v => (Video.id v =? video_id)%nat) (videos (db w)) with
  | None => True
  | Some video => Video.thumbnail_filename video = None
  end ->
  exists message,
    delete_video current_user video_id w =
      (set_flashes (fun fl => (fl ++ ["Error deleting video: " +:+ message])%list) w,
       Return (Redirect "home")).
Proof.
  intros Hsuper H. unfold delete_video. rewrite Hsuper. unfold_monad. cbn [negb].
  destruct (find (fun v => (Video.id v =? video_id)%nat) (videos (db w))) as [video|].
  - rewrite H. eexists. reflexivity.
  - eexists. reflexivity.
Qed.

(** Deleting a stored video whose two assets accept removal. *)
Lemma delete_video_removes (current_user : User.t) (video_id : nat)
    (video : Video.t) (thumb : string) (w : World) :
  User.is_superuser current_user = true ->
  session (db w) = [] ->
  find (fun v => (Video.id v =? video_id)%nat) (videos (db w)) = Some video ->
  Video.thumbnail_filename video = Some thumb ->
  video_asset video ∉ locked (fs w) ->
  thumbnail_asset thumb ∉ locked (fs w) ->
  exists w',
    delete_video current_user video_id w = (w', Return (Redirect "home")) /\
    videos (db w') =
      List.filter (fun v => negb (Video.id v =? video_id)%nat) (videos (db w)) /\
    users (db w') = users (db w) /\
    files (fs w') !! video_asset video = None /\
    files (fs w') !! thumbnail_asset thumb = None.
Proof.
  intros Hsuper Hs Hfind Hthumb Hlv Hlt.
  assert (Hid : Video.id video = video_id).
  { apply find_some in Hfind as [_ H]. now apply Nat.eqb_eq in H. }
  unfold delete_video. rewrite Hsuper. cbn [negb].
  unfold_monad. rewrite Hfind, Hthumb.
  fold (video_asset video). fold (thumbnail_asset thumb).
  delete_video_cases.
  all: try contradiction.
  all: eexists; (split; [reflexivity|]);
       cbn [fst snd set_fs set_db set_flashes fs db files locked session users videos];
       rewrite ?Hid.
  all: repeat match goal with
       | H : is_Some (delete _ _ !! _) |- _ =>
           apply lookup_delete_is_Some in H as [? ?]
       | H : ¬ is_Some _ |- _ => apply eq_None_not_Some in H
       | H : delete _ _ !! _ = None |- _ => apply lookup_delete_None in H
       end.
  all: repeat split; try done.
  all: rewrite ?lookup_delete; repeat case_decide; try done.
  all: try solve [intuition (subst; try tauto; eauto)].
Qed.

(** X12.  From an empty session [delete_video] never changes the [user]
    table or the locks, never adds a video record, keeps every record
    other than the one asked for, and leaves every file as it was except
    that the two assets of that record may be gone. *)
Theorem delete_video_touches_only_its_video (current_user : User.t)
    (video_id : nat) (w : World) :
  session (db w) = [] ->
  users (db (fst (delete_video current_user video_id w))) = users (db w) /\
  locked (fs (fst (delete_video current_user video_id w))) = locked (fs w) /\
  (forall v, In v (videos (db w)) -> Video.id v <> video_id ->
     In v (videos (db (fst (delete_video current_user video_id w))))) /\
  (forall v, In v (videos (db (fst (delete_video current_user video_id w)))) ->
     In v (videos (db w))) /\
  (forall p,
     files (fs (fst (delete_video current_user video_id w))) !! p = files (fs w) !! p \/
     files (fs (fst (delete_video current_user video_id w))) !! p = None /\
     exists video,
       find (fun v => (Video.id v =? video_id)%nat) (videos (db w)) = Some video /\
       (p = video_asset video \/
        exists thumb, Video.thumbnail_filename video = Some thumb /\
                      p = thumbnail_asset thumb)).
Proof.
  intros Hs. unfold delete_video.
  destruct (User.is_superuser current_user); cbn [negb];
    [|cbn; repeat split; auto].
  unfold_monad.
  destruct (find (fun v => (Video.id v =? video_id)%nat) (videos (db w)))
    as [video|] eqn:Hfind; [|cbn; repeat split; auto].
  assert (Hid : Video.id video = video_id).
  { apply find_some in Hfind as [_ H]. now apply Nat.eqb_eq in H. }
  destruct (Video.thumbnail_filename video) as [thumb|] eqn:Hthumb;
    [|cbn; repeat split; auto].
  fold (video_asset video). fold (thumbnail_asset thumb).
  delete_video_cases.
  all: rewrite ?Hid.
  all: repeat split; try done.
  all: try (intros v Hv Hne; apply filter_In; split; [exact Hv|];
            now apply negb_true_iff, Nat.eqb_neq).
  all: try (intros v Hv; now apply filter_In in Hv as [Hv _]).
  all: intros p; rewrite ?lookup_delete; repeat case_decide; subst; eauto 10.
Qed.

(** ** Fresh keys *)

Lemma find_all_false {A} (f : A -> bool) (l : list A) :
  (forall x, In x l -> f x = false) -> find f l = None.
Proof.
  induction l as [|x l IH]; intros H; simpl; [reflexivity|].
  rewrite (H x) by now left. apply IH. intros y Hy. apply H. now right.
Qed.

Lemma filter_all_true {A} (f : A -> bool) (l : list A) :
  (forall x, In x l -> f x = true) -> List.filter f l = l.
Proof.
  induction l as [|x l IH]; intros H; simpl; [reflexivity|].
  rewrite (H x) by now left. f_equal. apply IH. intros y Hy. apply H. now right.
Qed.

Lemma next_id_fresh (ids : list nat) (i : nat) : In i ids -> i <> next_id ids.
Proof.
  intros H. apply list_elem_of_In, max_list_elem_of_le in H. unfold next_id. lia.
Qed.

Lemma find_video_fresh (vs : list Video.t) (v : Video.t) :
  Video.id v = next_id (map Video.id vs) ->
  find (fun x => (Video.id x =? Video.id v)%nat) (vs ++ [v]) = Some v /\
  List.filter (fun x => negb (Video.id x =? Video.id v)%nat) (vs ++ [v]) = vs.
Proof.
  intros Hv.
  assert (Hold : forall x, In x vs -> (Video.id x =? Video.id v)%nat = false).
  { intros x Hx. apply Nat.eqb_neq. rewrite Hv. apply next_id_fresh. now apply in_map. }
  split.
  - rewrite (find_app_None _ _ _ (find_all_false _ _ Hold)). simpl.
    now rewrite Nat.eqb_refl.
  - rewrite List.filter_app. simpl. rewrite Nat.eqb_refl. simpl.
    rewrite app_nil_r. apply filter_all_true. intros x Hx. now rewrite (Hold x Hx).
Qed.

(** ** Thumbnail extraction and ingestion, continued *)

Section MediaProperties2.

Variable VideoFileClip : string -> option data -> result VideoClip.
Variable imageio_get_reader : string -> option data -> result Reader.

Local Abbreviation via_moviepy := (thumbnail_via_moviepy VideoFileClip).
Local Abbreviation via_imageio := (thumbnail_via_imageio imageio_get_reader).
Local Abbreviation gen_thumbnail := (generate_thumbnail VideoFileClip imageio_get_reader).
Local Abbreviation save := (save_video VideoFileClip imageio_get_reader).
Local Abbreviation upload_handler := (upload VideoFileClip imageio_get_reader).

Lemma via_moviepy_files (video_path thumbnail_path : string) (w : World) :
  writes_only thumbnail_path w (via_moviepy video_path thumbnail_path w).
Proof.
  unfold writes_only, thumbnail_via_moviepy, open_clip. unfold_monad. simpl.
  repeat case_match; simplify_eq; simpl.
  all: repeat split; try done; intros;
       rewrite ?lookup_insert_eq, ?lookup_insert_ne by congruence; try done.
  all: try (match goal with H : bool_decide _ = false |- _ =>
              now apply bool_decide_eq_false in H end).
Qed.

Lemma via_imageio_files (video_path thumbnail_path : string) (e : exn) (w : World) :
  writes_only thumbnail_path w (via_imageio video_path thumbnail_path e w).
Proof.
  unfold writes_only, thumbnail_via_imageio, open_reader. unfold_monad. simpl.
  repeat case_match; simplify_eq; simpl.
  all: repeat split; try done; intros;
       rewrite ?lookup_insert_eq, ?lookup_insert_ne by congruence; try done.
  all: try (match goal with H : bool_decide _ = false |- _ =>
              now apply bool_decide_eq_false in H end).
Qed.

Lemma via_moviepy_read_only (video_path thumbnail_path : string) (w : World) :
  read_only (fs (fst (via_moviepy video_path thumbnail_path w))) = read_only (fs w).
Proof.
  unfold thumbnail_via_moviepy, open_clip. unfold_monad. simpl.
  repeat case_match; simplify_eq; reflexivity.
Qed.

Lemma generate_thumbnail_files (self : VideoService)
    (video_path thumbnail_path : string) (w : World) :
  writes_only thumbnail_path w (gen_thumbnail self video_path thumbnail_path w).
Proof.
  rewrite generate_thumbnail_unfold.
  pose proof (via_moviepy_files video_path thumbnail_path w) as F1.
  pose proof (via_moviepy_read_only video_path thumbnail_path w) as L1.
  destruct (via_moviepy video_path thumbnail_path w) as [w1 [b|e1]]; [exact F1|].
  pose proof (via_imageio_files video_path thumbnail_path e1 w1) as F2.
  destruct F1 as (A1 & B1 & _). simpl in A1, B1, L1.
  destruct (via_imageio video_path thumbnail_path e1 w1) as [w2 [b|e2]];
    destruct F2 as (A2 & B2 & C2); simpl in *.
  - repeat split.
    + intros p Hp. now rewrite A2, A1.
    + tauto.
    + tauto.
    + rewrite <- L1. tauto.
  - repeat split.
    + intros p Hp. now rewrite A2, A1.
    + tauto.
Qed.

(** X2.  [generate_thumbnail] changes no file but the one at the thumbnail
    path, never removes a thumbnail that was there, and when it returns
    the thumbnail is in the store. *)
Theorem generate_thumbnail_touches_only_thumbnail (self : VideoService)
    (video_path thumbnail_path : string) (w : World) :
  (forall p, p <> thumbnail_path ->
     files (fs (fst (gen_thumbnail self video_path thumbnail_path w))) !! p =
     files (fs w) !! p) /\
  (is_Some (files (fs w) !! thumbnail_path) ->
   is_Some (files (fs (fst (gen_thumbnail self video_path thumbnail_path w)))
              !! thumbnail_path)) /\
  (snd (gen_thumbnail self video_path thumbnail_path w) = Return true ->
   is_Some (files (fs (fst (gen_thumbnail self video_path thumbnail_path w)))
              !! thumbnail_path)).
Proof.
  destruct (generate_thumbnail_files self video_path thumbnail_path w) as (A & B & C).
  split; [exact A|]. split; [exact B|].
  intros H. rewrite H in C. tauto.
Qed.

(** X3.  When the clip opens but its frame cannot be read, and the reader
    opens but its first frame cannot be read, [generate_thumbnail] raises
    without having closed either of them: the calls made are the two
    openings and the two failed reads, and no file has changed. *)
Theorem failed_extraction_closes_nothing (self : VideoService)
    (video_path thumbnail_path : string) (w : World)
    (clip : VideoClip) (reader : Reader) (e1 e2 : exn) :
  VideoFileClip video_path (files (fs w) !! video_path) = Return clip ->
  frame_at clip (Qmin 1 (duration clip)) = Raise e1 ->
  imageio_get_reader video_path (files (fs w) !! video_path) = Return reader ->
  frame_number reader 0 = Raise e2 ->
  exists w',
    gen_thumbnail self video_path thumbnail_path w =
      (w', Raise (ThumbnailGenerationError
                    ("Failed to generate thumbnail: " +:+ str e2))) /\
    calls w' =
      (calls w ++ [Call_VideoFileClip video_path;
                   Call_save_frame thumbnail_path (Qmin 1 (duration clip));
                   Call_get_reader video_path; Call_get_data 0])%list /\
    fs w' = fs w.
Proof.
  intros Hclip Hframe Hreader Hdata.
  rewrite generate_thumbnail_unfold.
  unfold thumbnail_via_moviepy, thumbnail_via_imageio, open_clip, open_reader.
  unfold_monad. simpl. rewrite Hclip, py_min_Qmin, Hframe. simpl.
  rewrite Hreader, Hdata.
  eexists. split; [reflexivity|]. simpl. rewrite <- !app_assoc. now split.
Qed.

(** A run of [save_video] that returns: the upload was accepted, the
    asset was written, the thumbnail was extracted. *)
Lemma save_video_Return (self : VideoService) (file : FileStorage.t)
    (title : option string) (w w' : World) (names : string * string) :
  save self (Some file) title w = (w', Return names) ->
  _is_allowed_file self (FileStorage.filename file) = Return true /\
  names = (storage_name (utcnow w) (FileStorage.filename file),
           thumbnail_name (storage_name (utcnow w) (FileStorage.filename file))) /\
  exists w0,
    FileStorage_save file (video_path_of self w file) w = (w0, Return tt) /\
    gen_thumbnail self (video_path_of self w file) (thumbnail_path_of self w file) w0 =
      (w', Return true).
Proof.
  rewrite save_video_unfold.
  destruct (String.eqb (FileStorage.filename file) ""); [discriminate|].
  destruct (_is_allowed_file self (FileStorage.filename file)) as [[|]|e] eqn:Ha;
    try discriminate.
  destruct (FileStorage_save file (video_path_of self w file) w) as [w0 [[]|e]] eqn:Hs.
  - destruct (gen_thumbnail self _ _ w0) as [w1 [b|e]] eqn:Hg.
    + intros [= <- <-]. split; [reflexivity|]. split; [reflexivity|].
      exists w0. split; [reflexivity|]. destruct b; [exact Hg|].
      exfalso. exact (generate_thumbnail_not_False _ _ _ _ _ _ _ Hg).
    + intros H. destruct (cleanup_raises (video_path_of self w file) e w1) as [e' He].
      rewrite H in He. discriminate.
  - intros H. destruct (cleanup_raises (video_path_of self w file) e w0) as [e' He].
    rewrite H in He. discriminate.
Qed.

Lemma save_video_frame_aux (self : VideoService) (file : FileStorage.t)
    (title : option string) (w : World) :
  db (fst (save self (Some file) title w)) = db w /\
  flashes (fst (save self (Some file) title w)) = flashes w /\
  locked (fs (fst (save self (Some file) title w))) = locked (fs w) /\
  utcnow (fst (save self (Some file) title w)) = utcnow w /\
  forall p,
    p <> video_path_of self w file -> p <> thumbnail_path_of self w file ->
    files (fs (fst (save self (Some file) title w))) !! p = files (fs w) !! p.
Proof.
  rewrite save_video_unfold.
  destruct (String.eqb (FileStorage.filename file) "");
    [cbn [fst]; repeat split; reflexivity|].
  destruct (_is_allowed_file self (FileStorage.filename file)) as [[|]|e];
    try (cbn [fst]; repeat split; reflexivity).
  unfold FileStorage_save, write_file.
  destruct (bool_decide (video_path_of self w file ∈ read_only (fs w))).
  - destruct (cleanup_frame (video_path_of self w file)
                (OSError ("[Errno 13] Permission denied: '" +:+
                          video_path_of self w file +:+ "'")) w) as (A & B & C & D).
    split; [exact A|]. split; [exact B|]. split; [exact C|]. split.
    + unfold cleanup, os_remove.
      repeat (case_match; cbn [fst snd] in * ); simplify_eq; reflexivity.
    + intros p Hp _. now apply D.
  - set (w0 := set_fs _ w).
    pose proof (generate_thumbnail_outcome VideoFileClip imageio_get_reader self
                  (video_path_of self w file) (thumbnail_path_of self w file) w0)
      as [(L & D & U & F) _].
    pose proof (generate_thumbnail_files self (video_path_of self w file)
                  (thumbnail_path_of self w file) w0) as (A & _).
    destruct (gen_thumbnail self _ _ w0) as [w1 [b|e]]; cbn [fst snd] in *.
    + split; [exact D|]. split; [exact F|]. split; [exact L|]. split; [exact U|].
      intros p Hp Ht. rewrite (A p Ht). subst w0. cbn [set_fs fs files].
      apply lookup_insert_ne. congruence.
    + destruct (cleanup_frame (video_path_of self w file) e w1) as (A' & B' & C' & D').
      split; [now rewrite A'|]. split; [now rewrite B'|]. split; [now rewrite C'|].
      split.
      * transitivity (utcnow w1); [|exact U]. unfold cleanup, os_remove.
        repeat (case_match; cbn [fst snd] in * ); simplify_eq; reflexivity.
      * intros p Hp Ht. rewrite (D' p Hp), (A p Ht). subst w0. cbn [set_fs fs files].
        apply lookup_insert_ne. congruence.
Qed.

(** X4.  [save_video] never touches the database, the flashed messages or the
    locks, and changes no file other than the video asset and the
    thumbnail of this upload. *)
Theorem save_video_frame (self : VideoService) (file : FileStorage.t)
    (title : option string) (w : World) :
  db (fst (save self (Some file) title w)) = db w /\
  flashes (fst (save self (Some file) title w)) = flashes w /\
  locked (fs (fst (save self (Some file) title w))) = locked (fs w) /\
  forall p,
    p <> video_path_of self w file -> p <> thumbnail_path_of self w file ->
    files (fs (fst (save self (Some file) title w))) !! p = files (fs w) !! p.
Proof.
  destruct (save_video_frame_aux self file title w) as (A & B & C & _ & D).
  now repeat split.
Qed.

Lemma save_video_stores_both_assets_aux (file : FileStorage.t) (title : option string)
    (w w' : World) (filename thumbnail_filename : string) :
  save video_service (Some file) title w = (w', Return (filename, thumbnail_filename)) ->
  files (fs w') !! ("static/uploads/" +:+ filename) = Some (FileStorage.stream file) /\
  is_Some (files (fs w') !! ("static/thumbnails/" +:+ thumbnail_filename)).
Proof.
  intros H. apply save_video_Return in H as (_ & [= -> ->] & w0 & Hs & Hg).
  rewrite <- video_path_of_video_service, <- thumbnail_path_of_video_service.
  apply FileStorage_save_Return in Hs as [_ ->].
  pose proof (generate_thumbnail_files video_service
                (video_path_of video_service w file)
                (thumbnail_path_of video_service w file)
                (set_fs (fun f => mk_FS (<[video_path_of video_service w file :=
                                           FileStorage.stream file]> (files f))
                                        (locked f) (read_only f)) w)) as (A & _ & C).
  rewrite Hg in A, C. cbn [fst snd] in A, C. split; [|tauto].
  rewrite (A _ (video_service_paths_differ w file)). cbn [set_fs fs files].
  apply lookup_insert_eq.
Qed.

(** X5.  After an ingestion that returns, the asset store holds the uploaded
    bytes under the returned storage name and the thumbnail store holds a
    file under the returned thumbnail name. *)
Theorem save_video_stores_both_assets (file : FileStorage.t) (title : option string)
    (w w' : World) (filename thumbnail_filename : string) :
  save video_service (Some file) title w = (w', Return (filename, thumbnail_filename)) ->
  files (fs w') !! ("static/uploads/" +:+ filename) = Some (FileStorage.stream file) /\
  is_Some (files (fs w') !! ("static/thumbnails/" +:+ thumbnail_filename)).
Proof. apply save_video_stores_both_assets_aux. Qed.

(** X6.  An accepted upload whose storage path refuses the write.  When
    no file is at that path, [save_video] raises [VideoUploadError]
    wrapping the permission error and the world is unchanged.  When a
    file is there and refuses removal, the handler's own [os.remove]
    raises and that [OSError] is what [save_video] raises; the world is
    unchanged.  When a file is there and accepts removal, the handler
    removes it, though this call never wrote it, and [save_video] raises
    [VideoUploadError]. *)
Theorem save_video_refused_write (self : VideoService) (file : FileStorage.t)
    (title : option string) (w : World) :
  _is_allowed_file self (FileStorage.filename file) = Return true ->
  video_path_of self w file ∈ read_only (fs w) ->
  save self (Some file) title w =
  match files (fs w) !! video_path_of self w file with
  | None =>
      (w, Raise (VideoUploadError
                   ("Failed to upload video: " +:+
                    "[Errno 13] Permission denied: '" +:+
                    video_path_of self w file +:+ "'")))
  | Some _ =>
      if bool_decide (video_path_of self w file ∈ locked (fs w)) then
        (w, Raise (OSError ("[Errno 13] Permission denied: '" +:+
                            video_path_of self w file +:+ "'")))
      else
        (set_fs (fun f => mk_FS (delete (video_path_of self w file) (files f))
                                (locked f) (read_only f)) w,
         Raise (VideoUploadError
                  ("Failed to upload video: " +:+
                   "[Errno 13] Permission denied: '" +:+
                   video_path_of self w file +:+ "'")))
  end.
Proof.
  intros Ha Hl.
  rewrite save_video_unfold, (allowed_filename_nonempty _ _ Ha), Ha.
  unfold FileStorage_save, write_file.
  rewrite (bool_decide_eq_true_2 _ Hl). cbv iota beta.
  unfold cleanup, os_remove.
  destruct (files (fs w) !! video_path_of self w file) as [d|] eqn:Hf.
  - rewrite bool_decide_eq_true_2 by eauto.
    now destruct (bool_decide (video_path_of self w file ∈ locked (fs w))).
  - rewrite bool_decide_eq_false_2 by (intros [? ?]; discriminate). reflexivity.
Qed.

(** X7.  Two ingestions at the same clock reading, of files whose declared
    names differ only after the last dot, return the same thumbnail
    name. *)
Theorem thumbnail_key_ignores_extension (self : VideoService)
    (file1 file2 : FileStorage.t) (title1 title2 : option string)
    (w1 w1' w2 w2' : World) (stem ext1 ext2 name1 name2 thumb1 thumb2 : string) :
  FileStorage.filename file1 = stem +:+ "." +:+ ext1 ->
  FileStorage.filename file2 = stem +:+ "." +:+ ext2 ->
  PyStr.contains "." ext1 = false ->
  PyStr.contains "." ext2 = false ->
  utcnow w1 = utcnow w2 ->
  save self (Some file1) title1 w1 = (w1', Return (name1, thumb1)) ->
  save self (Some file2) title2 w2 = (w2', Return (name2, thumb2)) ->
  thumb1 = thumb2.
Proof.
  intros E1 E2 D1 D2 Ht H1 H2.
  apply save_video_Return in H1 as (_ & [= _ ->] & _).
  apply save_video_Return in H2 as (_ & [= _ ->] & _).
  now rewrite E1, E2, Ht, !thumbnail_name_ext.
Qed.

(** ** Uploading *)

(** [upload] on a POST by a superuser, in terms of [save_video]. *)
Lemma upload_POST (current_user : User.t) (request_url : string)
    (file : FileStorage.t) (title : option string) (w : World) :
  User.is_superuser current_user = true ->
  upload_handler current_user "POST" request_url (Some file) title w =
  match save video_service (Some file) title w with
  | (w1, Return names) =>
      match (session_add (AddVideo title (fst names) (Some (snd names))) ;;
             session_commit ;;
             flash "Video uploaded successfully!" ;;
             ret (Redirect "home")) w1 with
      | (w2, Return r) => (w2, Return r)
      | (w2, Raise e) =>
          if is_VideoUploadError e then (flash (str e) ;; ret (Redirect request_url)) w2
          else (w2, Raise e)
      end
  | (w1, Raise e) =>
      if is_VideoUploadError e then (flash (str e) ;; ret (Redirect request_url)) w1
      else (w1, Raise e)
  end.
Proof.
  intros Hsuper. unfold upload. rewrite Hsuper. cbn [negb].
  change (String.eqb "POST" "POST") with true. cbv iota.
  unfold try_except. unfold bind at 1. unfold ret at 1. unfold bind at 1.
  destruct (save video_service (Some file) title w) as [w1 [[fn tn]|e]]; reflexivity.
Qed.

Lemma upload_adds_one_record_aux (current_user : User.t) (request_url : string)
    (file : FileStorage.t) (title : string) (w w1 : World)
    (filename thumbnail_filename : string) :
  User.is_superuser current_user = true ->
  session (db w) = [] ->
  save video_service (Some file) (Some title) w =
    (w1, Return (filename, thumbnail_filename)) ->
  exists w2,
    upload_handler current_user "POST" request_url (Some file) (Some title) w =
      (w2, Return (Redirect "home")) /\
    videos (db w2) =
      (videos (db w) ++
       [Video.mk (next_id (map Video.id (videos (db w)))) title filename
          (Some thumbnail_filename) (utcnow w)])%list /\
    users (db w2) = users (db w) /\
    session (db w2) = [] /\
    fs w2 = fs w1 /\
    flashes w2 = (flashes w ++ ["Video uploaded successfully!"])%list.
Proof.
  intros Hsuper Hs Hsave.
  pose proof (save_video_frame_aux video_service file (Some title) w) as (D & F & _ & U & _).
  rewrite Hsave in D, F, U. cbn [fst] in D, F, U.
  rewrite (upload_POST _ _ _ _ _ Hsuper), Hsave. cbn [fst snd].
  unfold_monad. cbn [db set_db session users videos utcnow fst snd].
  rewrite D, Hs, U. cbn [app flush flush_one].
  eexists. split; [reflexivity|].
  cbn [db set_db set_flashes session users videos fs flashes]. rewrite F.
  repeat split.
Qed.

(** X8.  A POST by a superuser whose ingestion returns, with a title and from
    an empty session: one record is appended to the [video] table, with
    the title, the two returned names, a fresh key and the clock reading;
    the answer is a redirect to the home page. *)
Theorem upload_adds_one_record (current_user : User.t) (request_url : string)
    (file : FileStorage.t) (title : string) (w w1 : World)
    (filename thumbnail_filename : string) :
  User.is_superuser current_user = true ->
  session (db w) = [] ->
  save video_service (Some file) (Some title) w =
    (w1, Return (filename, thumbnail_filename)) ->
  exists w2,
    upload_handler current_user "POST" request_url (Some file) (Some title) w =
      (w2, Return (Redirect "home")) /\
    videos (db w2) =
      (videos (db w) ++
       [Video.mk (next_id (map Video.id (videos (db w)))) title filename
          (Some thumbnail_filename) (utcnow w)])%list /\
    users (db w2) = users (db w) /\
    session (db w2) = [] /\
    fs w2 = fs w1 /\
    flashes w2 = (flashes w ++ ["Video uploaded successfully!"])%list.
Proof. apply upload_adds_one_record_aux. Qed.

(** X9.  The same POST without a title: the commit is refused, the
    [IntegrityError] is not one [upload] catches, and the two assets
    written by the ingestion stay in the stores with no record naming
    them. *)
Theorem upload_without_title_orphans_assets (current_user : User.t)
    (request_url : string) (file : FileStorage.t) (w w1 : World)
    (filename thumbnail_filename : string) :
  User.is_superuser current_user = true ->
  session (db w) = [] ->
  save video_service (Some file) None w =
    (w1, Return (filename, thumbnail_filename)) ->
  exists w2 message,
    upload_handler current_user "POST" request_url (Some file) None w =
      (w2, Raise (IntegrityError message)) /\
    videos (db w2) = videos (db w) /\
    files (fs w2) !! ("static/uploads/" +:+ filename) = Some (FileStorage.stream file) /\
    is_Some (files (fs w2) !! ("static/thumbnails/" +:+ thumbnail_filename)) /\
    flashes w2 = flashes w.
Proof.
  intros Hsuper Hs Hsave.
  pose proof (save_video_frame_aux video_service file None w) as (D & F & _ & U & _).
  rewrite Hsave in D, F, U. cbn [fst] in D, F, U.
  destruct (save_video_stores_both_assets_aux _ _ _ _ _ _ Hsave) as [A B].
  rewrite (upload_POST _ _ _ _ _ Hsuper), Hsave. cbn [fst snd].
  unfold_monad. cbn [db set_db session users videos utcnow fst snd].
  rewrite D, Hs. cbn [app flush flush_one is_VideoUploadError].
  do 2 eexists. split; [reflexivity|].
  cbn [db set_db set_flashes session users videos fs flashes].
  rewrite D. repeat split; assumption.
Qed.

(** X10.  Uploading a video and then deleting the record that was
    created, when neither of the two assets refuses removal, brings the
    [video] table back to what it was and leaves neither asset in the
    stores. *)
Theorem upload_then_delete_video (current_user : User.t) (request_url : string)
    (file : FileStorage.t) (title : string) (w w1 : World)
    (filename thumbnail_filename : string) :
  User.is_superuser current_user = true ->
  session (db w) = [] ->
  save video_service (Some file) (Some title) w =
    (w1, Return (filename, thumbnail_filename)) ->
  "static/uploads/" +:+ filename ∉ locked (fs w) ->
  "static/thumbnails/" +:+ thumbnail_filename ∉ locked (fs w) ->
  exists w2 w3,
    upload_handler current_user "POST" request_url (Some file) (Some title) w =
      (w2, Return (Redirect "home")) /\
    delete_video current_user (next_id (map Video.id (videos (db w)))) w2 =
      (w3, Return (Redirect "home")) /\
    videos (db w3) = videos (db w) /\
    files (fs w3) !! ("static/uploads/" +:+ filename) = None /\
    files (fs w3) !! ("static/thumbnails/" +:+ thumbnail_filename) = None.
Proof.
  intros Hsuper Hs Hsave Lv Lt.
  destruct (upload_adds_one_record_aux current_user request_url file title w w1
              filename thumbnail_filename Hsuper Hs Hsave)
    as (w2 & Hup & Hv & _ & Hs2 & Hfs & _).
  pose proof (save_video_frame_aux video_service file (Some title) w) as (_ & _ & L & _).
  rewrite Hsave in L. cbn [fst] in L.
  pose proof Hsave as Hn. apply save_video_Return in Hn as (_ & [= Hfn Htn] & _).
  set (v := Video.mk (next_id (map Video.id (videos (db w)))) title filename
              (Some thumbnail_filename) (utcnow w)) in *.
  destruct (find_video_fresh (videos (db w)) v eq_refl) as [Hfind Hfilter].
  assert (Hva : video_asset v = "static/uploads/" +:+ filename).
  { unfold video_asset, v. cbn [Video.filename]. rewrite Hfn.
    apply (video_path_of_video_service w file). }
  assert (Hta : thumbnail_asset thumbnail_filename =
                "static/thumbnails/" +:+ thumbnail_filename).
  { rewrite Htn. apply (thumbnail_path_of_video_service w file). }
  destruct (delete_video_removes current_user (Video.id v) v thumbnail_filename w2)
    as (w3 & Hdel & Hv3 & _ & Gv & Gt).
  - exact Hsuper.
  - exact Hs2.
  - rewrite Hv. exact Hfind.
  - reflexivity.
  - rewrite Hfs, L, Hva. exact Lv.
  - rewrite Hfs, L, Hta. exact Lt.
  - exists w2, w3. split; [exact Hup|]. split; [exact Hdel|].
    split; [now rewrite Hv3, Hv, Hfilter|].
    split; [now rewrite <- Hva | now rewrite <- Hta].
Qed.

End MediaProperties2.

(** ** Accounts, continued *)

Section AccountProperties2.

Variable generate_password_hash : string -> string -> string.
Variable check_password_hash : string -> string -> bool.

Local Abbreviation create := (create_user generate_password_hash).
Local Abbreviation authenticate := (authenticate_user check_password_hash).
Local Abbreviation register_handler := (register generate_password_hash).
Local Abbreviation login_handler := (login check_password_hash).
Local Abbreviation main_block := (main generate_password_hash).

Lemma create_user_fresh_row (username password salt : string) (w : World) :
  (8 <= String.length password)%nat ->
  session (db w) = [] ->
  find (fun u => String.eqb (User.username u) username) (users (db w)) = None ->
  create username password salt w =
    (set_db (fun d =>
               mk_Db (users d ++
                      [User.mk (next_id (map User.id (users d))) username
                         (generate_password_hash salt password) false])
                     (videos d) []) w,
     Return (User.mk (next_id (map User.id (users (db w)))) username
               (generate_password_hash salt password) false)).
Proof.
  intros Hp Hs Hf. apply Nat.ltb_ge in Hp.
  unfold create_user. unfold_monad. rewrite Hp, Hf. cbn [fst snd db set_db session].
  rewrite Hs. cbn [app flush flush_one users videos].
  rewrite (find_none_existsb _ _ Hf). cbn [fst snd db set_db users].
  rewrite (find_app_None _ _ _ Hf). cbn [find User.username].
  rewrite String.eqb_refl. reflexivity.
Qed.

Lemma create_user_too_short (username password salt : string) (w : World) :
  (String.length password < 8)%nat ->
  create username password salt w =
    (set_db (fun d => mk_Db (users d) (videos d) []) w,
     Raise (AuthenticationError
              "Failed to create user: Password must be at least 8 characters long")).
Proof.
  intros H. apply Nat.ltb_lt in H.
  unfold create_user. unfold_monad. now rewrite H.
Qed.

(** X13.  [create_user] from an empty session succeeds exactly when the
    password has 8 characters or more and no row carries the name.  It
    then appends one row, with a key no row had, the salted digest of the
    password, and no superuser flag.  Otherwise it raises
    [AuthenticationError] and the table is unchanged. *)
Theorem create_user_outcome (username password salt : string) (w : World) :
  session (db w) = [] ->
  (exists w',
     create username password salt w =
       (w', Return (User.mk (next_id (map User.id (users (db w)))) username
                      (generate_password_hash salt password) false)) /\
     users (db w') =
       (users (db w) ++
        [User.mk (next_id (map User.id (users (db w)))) username
           (generate_password_hash salt password) false])%list /\
     ~ In (next_id (map User.id (users (db w)))) (map User.id (users (db w))) /\
     (8 <= String.length password)%nat /\
     ~ In username (map User.username (users (db w)))) \/
  (exists w' message,
     create username password salt w = (w', Raise (AuthenticationError message)) /\
     users (db w') = users (db w) /\
     ((String.length password < 8)%nat \/
      In username (map User.username (users (db w))))).
Proof.
  intros Hs.
  destruct (Nat.ltb_spec (String.length password) 8) as [Hp|Hp].
  - right. do 2 eexists. split; [now apply create_user_too_short|]. split; [reflexivity|].
    now left.
  - destruct (find (fun u => String.eqb (User.username u) username) (users (db w)))
      as [row|] eqn:Hf.
    + right. do 2 eexists. split; [now apply (create_user_taken _ _ _ _ _ row)|].
      split; [reflexivity|]. right.
      apply find_some_username in Hf as [Hin <-]. now apply in_map.
    + left. eexists. split; [now apply create_user_fresh_row|].
      split; [reflexivity|]. split.
      * intros Hin. now apply (next_id_fresh _ _ Hin).
      * split; [exact Hp | now apply find_none_absent].
Qed.

(** X14.  Registering and then logging in with the same password: when the
    library's check accepts the digest it has just produced,
    [authenticate_user] returns the very row [create_user] returned. *)
Theorem create_then_authenticate (username password salt : string) (w : World) :
  session (db w) = [] ->
  (8 <= String.length password)%nat ->
  ~ In username (map User.username (users (db w))) ->
  check_password_hash (generate_password_hash salt password) password = true ->
  exists w1 row,
    create username password salt w = (w1, Return row) /\
    authenticate username password w1 = (w1, Return row).
Proof.
  intros Hs Hp Hfree Hcheck.
  pose proof (absent_find_none _ _ Hfree) as Hf.
  do 2 eexists. split; [now apply create_user_fresh_row|].
  unfold authenticate_user. unfold_monad. cbn [db set_db users].
  rewrite (find_app_None _ _ _ Hf). cbn [find User.username User.password_hash].
  rewrite String.eqb_refl. cbn [User.password_hash]. now rewrite Hcheck.
Qed.

(** X15.  [register] on a POST never raises.  From an empty session it
    redirects to the login page exactly when [create_user] succeeds, and
    then one row has been appended; otherwise it redirects back to the
    registration page and the [user] table is unchanged.  One message is
    flashed either way. *)
Theorem register_outcome (username password salt : string) (w : World) :
  session (db w) = [] ->
  exists w' target message,
    register_handler "POST" username password salt w = (w', Return (Redirect target)) /\
    flashes w' = (flashes w ++ [message])%list /\
    (target = "login" /\
     users (db w') =
       (users (db w) ++
        [User.mk (next_id (map User.id (users (db w)))) username
           (generate_password_hash salt password) false])%list /\
     (8 <= String.length password)%nat /\
     ~ In username (map User.username (users (db w))) \/
     target = "register" /\
     users (db w') = users (db w) /\
     ((String.length password < 8)%nat \/
      In username (map User.username (users (db w))))).
Proof.
  intros Hs. unfold register. change (String.eqb "POST" "POST") with true. cbv iota.
  unfold try_except. unfold bind at 1.
  destruct (Nat.ltb_spec (String.length password) 8) as [Hp|Hp].
  - rewrite create_user_too_short by assumption.
    cbn [is_AuthenticationError]. unfold_monad. cbn [fst snd].
    do 3 eexists. split; [reflexivity|]. split; [reflexivity|].
    right. split; [reflexivity|]. split; [reflexivity | now left].
  - destruct (find (fun u => String.eqb (User.username u) username) (users (db w)))
      as [row|] eqn:Hf.
    + rewrite (create_user_taken _ _ _ _ _ row) by assumption.
      cbn [is_AuthenticationError]. unfold_monad. cbn [fst snd].
      do 3 eexists. split; [reflexivity|]. split; [reflexivity|].
      right. split; [reflexivity|]. split; [reflexivity|]. right.
      apply find_some_username in Hf as [Hin <-]. now apply in_map.
    + rewrite create_user_fresh_row by assumption.
      unfold_monad. cbn [fst snd].
      do 3 eexists. split; [reflexivity|]. split; [reflexivity|].
      left. split; [reflexivity|]. split; [reflexivity|].
      split; [exact Hp | now apply find_none_absent].
Qed.

(** X16.  [login] on a POST.  When a row carries the submitted name and
    the digest check accepts the submitted password, that row becomes
    the logged-in user and the answer is a redirect to the home page.
    When no row carries the name, or the name is absent from the form,
    or the check rejects the password, the logged-in user is who it was,
    one and the same message is flashed and the login page is rendered
    again.  When a row carries the name and the password is absent from
    the form, the library's error is wrapped and flashed instead, the
    logged-in user again unchanged.  The stores and the tables are never
    touched. *)
Theorem login_outcome (username password : option string) (current : option User.t)
    (w : World) :
  login_handler "POST" username password (current, w) =
  match
    match username with
    | Some name => find (fun u => String.eqb (User.username u) name) (users (db w))
    | None => None
    end
  with
  | Some row =>
      match password with
      | Some p =>
          if check_password_hash (User.password_hash row) p then
            ((Some row, w), Return (Redirect "home"))
          else
            ((current,
              set_flashes
                (fun fl => (fl ++ ["Authentication failed: Invalid username or password"])%list)
                w),
             Return (RenderTemplate "login.html"))
      | None =>
          ((current,
            set_flashes
              (fun fl =>
                 (fl ++ ["Authentication failed: 'NoneType' object has no attribute 'encode'"])%list)
              w),
           Return (RenderTemplate "login.html"))
      end
  | None =>
      ((current,
        set_flashes
          (fun fl => (fl ++ ["Authentication failed: Invalid username or password"])%list) w),
       Return (RenderTemplate "login.html"))
  end.
Proof.
  unfold login, authenticate_form, authenticate_user, login_user.
  change (String.eqb "POST" "POST") with true. cbv iota.
  destruct username as [name|], password as [p|]; unfold_monad; cbn [fst snd];
    try reflexivity.
  - destruct (find (fun u => String.eqb (User.username u) name) (users (db w)))
      as [row|]; [|reflexivity].
    now destruct (check_password_hash (User.password_hash row) p).
  - now destruct (find (fun u => String.eqb (User.username u) name) (users (db w))).
Qed.

Lemma main_run (salt : string) (w : World) :
  session (db w) = [] ->
  main_block salt w =
  match find (fun u => String.eqb (User.username u) "piyu") (users (db w)) with
  | Some _ =>
      (set_stdout (fun out => (out ++ ["Superuser already exists!";
                                       "Database initialized successfully!"])%list) w,
       Return tt)
  | None =>
      (set_stdout (fun out => (out ++ ["Superuser created successfully!";
                                       "Database initialized successfully!"])%list)
         (set_db (fun d =>
                    mk_Db (users d ++
                           [User.mk (next_id (map User.id (users d))) "piyu"
                              (generate_password_hash salt "piyu") true])
                          (videos d) []) w),
       Return tt)
  end.
Proof.
  intros Hs. unfold main, db_create_all. unfold_monad. cbn [fst snd db set_stdout].
  destruct (find (fun u => String.eqb (User.username u) "piyu") (users (db w)))
    as [row|] eqn:Hf.
  - cbn [fst snd]. unfold set_stdout. cbn [fs db utcnow flashes stdout calls].
    now rewrite <- app_assoc.
  - cbn [fst snd db set_db set_stdout session users videos]. rewrite Hs.
    cbn [app flush flush_one]. rewrite (find_none_existsb _ _ Hf).
    cbn [fst snd]. unfold set_stdout, set_db.
    cbn [fs db utcnow flashes stdout calls]. now rewrite <- app_assoc.
Qed.

(** X17.  The start-up block from an empty session never raises, leaves a row
    named piyu in the [user] table, keeps every row that was there, and
    changes no table when it is run a second time. *)
Theorem main_idempotent (salt1 salt2 : string) (w : World) :
  session (db w) = [] ->
  exists w1 w2 added,
    main_block salt1 w = (w1, Return tt) /\
    users (db w1) = (users (db w) ++ added)%list /\
    In "piyu" (map User.username (users (db w1))) /\
    main_block salt2 w1 = (w2, Return tt) /\
    db w2 = db w1.
Proof.
  intros Hs. rewrite (main_run salt1 w Hs).
  destruct (find (fun u => String.eqb (User.username u) "piyu") (users (db w)))
    as [row|] eqn:Hf.
  - eexists. eexists. exists []. split; [reflexivity|]. cbn [db set_stdout].
    split; [now rewrite app_nil_r|].
    split; [apply find_some_username in Hf as [Hin <-]; now apply in_map|].
    rewrite main_run by exact Hs. cbn [db set_stdout]. rewrite Hf. now split.
  - eexists. eexists. eexists. split; [reflexivity|]. cbn [db set_db set_stdout users].
    split; [reflexivity|].
    split; [rewrite map_app; apply in_or_app; right; now left|].
    rewrite main_run by reflexivity. cbn [db set_db set_stdout users].
    rewrite (find_app_None _ _ _ Hf). cbn [find User.username].
    change (String.eqb "piyu" "piyu") with true. cbv iota. now split.
Qed.

End AccountProperties2.

(** ** Deleting a user *)

Lemma In_same_key {A} (key : A -> nat) (l : list A) (x y : A) :
  NoDup (map key l) -> In x l -> In y l -> key x = key y -> x = y.
Proof.
  induction l as [|z l IH]; simpl; [tauto|].
  intros Hnd Hx Hy E. apply NoDup_cons in Hnd as [Hz Hnd].
  destruct Hx as [->|Hx], Hy as [->|Hy]; try reflexivity.
  - destruct Hz. rewrite E. now apply list_elem_of_In, in_map.
  - destruct Hz. rewrite <- E. now apply list_elem_of_In, in_map.
  - now apply IH.
Qed.

(** [delete_user] on an ordinary account, from an empty session. *)
Lemma delete_user_run (current_user : User.t) (user_id : nat) (user : User.t) (w : World) :
  User.is_superuser current_user = true ->
  session (db w) = [] ->
  find (fun u => (User.id u =? user_id)%nat) (users (db w)) = Some user ->
  User.is_superuser user = false ->
  delete_user current_user user_id w =
    (set_flashes (fun fl => (fl ++ ["User deleted successfully!"])%list)
       (set_db (fun d =>
                  mk_Db (List.filter (fun u => negb (User.id u =? User.id user)%nat)
                                     (users d))
                        (videos d) []) w),
     Return (Redirect "admin_dashboard")).
Proof.
  intros Hsuper Hs Hfind Hord.
  unfold delete_user, User_get_or_404, session_delete_user, session_commit_deleting.
  rewrite Hsuper. cbn [negb]. unfold bind at 1. rewrite Hfind, Hord.
  unfold_monad. cbn [fst snd db]. rewrite Hs.
  cbn [fst snd app flush db set_db set_flashes users videos session existsb].
  assert (E : List.filter (fun u => negb ((User.id u =? User.id user)%nat || false))
                (users (db w)) =
              List.filter (fun u => negb (User.id u =? User.id user)%nat) (users (db w))).
  { apply filter_ext. intros u. now rewrite orb_false_r. }
  unfold set_flashes, set_db. cbn [fs db utcnow flashes stdout calls users videos session].
  now rewrite E.
Qed.

(** X18.  Whoever asks and whatever key is given, [delete_user] from an empty
    session on a table with distinct keys removes no superuser row. *)
Theorem delete_user_keeps_superusers (current_user : User.t) (user_id : nat)
    (w : World) (u : User.t) :
  session (db w) = [] ->
  NoDup (map User.id (users (db w))) ->
  In u (users (db w)) ->
  User.is_superuser u = true ->
  In u (users (db (fst (delete_user current_user user_id w)))).
Proof.
  intros Hs Hnd Hin Hu.
  destruct (User.is_superuser current_user) eqn:Hsuper;
    [|unfold delete_user; now rewrite Hsuper].
  destruct (find (fun x => (User.id x =? user_id)%nat) (users (db w))) as [user|] eqn:Hfind;
    [|unfold delete_user, User_get_or_404; rewrite Hsuper; cbn [negb];
      unfold bind at 1; rewrite Hfind;
      now destruct (N.of_nat user_id <? 2 ^ 63)%N].
  destruct (User.is_superuser user) eqn:Hord.
  - unfold delete_user, User_get_or_404. rewrite Hsuper. cbn [negb].
    unfold bind at 1. now rewrite Hfind, Hord.
  - rewrite (delete_user_run _ _ _ _ Hsuper Hs Hfind Hord). cbn [fst db set_db set_flashes users].
    apply filter_In. split; [exact Hin|]. apply negb_true_iff, Nat.eqb_neq. intros E.
    apply find_some in Hfind as [Hin' _].
    rewrite (In_same_key User.id _ _ _ Hnd Hin Hin' E) in Hu. congruence.
Qed.

(** X19.  Deleting an ordinary account removes that row and no other, and
    touches neither the videos nor the files. *)
Theorem delete_user_removes_exactly (current_user : User.t) (user_id : nat)
    (user : User.t) (w : World) :
  User.is_superuser current_user = true ->
  session (db w) = [] ->
  NoDup (map User.id (users (db w))) ->
  find (fun u => (User.id u =? user_id)%nat) (users (db w)) = Some user ->
  User.is_superuser user = false ->
  exists w',
    delete_user current_user user_id w = (w', Return (Redirect "admin_dashboard")) /\
    (forall u, In u (users (db w')) <-> In u (users (db w)) /\ u <> user) /\
    videos (db w') = videos (db w) /\
    fs w' = fs w.
Proof.
  intros Hsuper Hs Hnd Hfind Hord.
  eexists. split; [exact (delete_user_run _ _ _ _ Hsuper Hs Hfind Hord)|].
  cbn [db set_db set_flashes users videos fs]. split; [|now split].
  intros u. rewrite filter_In, negb_true_iff, Nat.eqb_neq.
  apply find_some in Hfind as [Hin' _]. split.
  - intros [Hin Hne]. split; [exact Hin|]. intros ->. now apply Hne.
  - intros [Hin Hne]. split; [exact Hin|]. intros E. apply Hne.
    exact (In_same_key User.id _ _ _ Hnd Hin Hin' E).
Qed.

(** X20.  A key that no row has: [delete_user] looks the row up outside
    its [try], so the error is raised to the caller and nothing has
    changed, where [delete_video] would have flashed a message and
    redirected.  The error is the 404 for a key below 2^63 and the
    driver's overflow error for a larger one. *)
Theorem delete_user_missing (current_user : User.t) (user_id : nat) (w : World) :
  User.is_superuser current_user = true ->
  find (fun u => (User.id u =? user_id)%nat) (users (db w)) = None ->
  delete_user current_user user_id w =
  (w, Raise (if (N.of_nat user_id <? 2 ^ 63)%N then NotFound
             else LibraryError "Python int too large to convert to SQLite INTEGER")).
Proof.
  intros Hsuper Hfind. unfold delete_user, User_get_or_404. rewrite Hsuper. cbn [negb].
  unfold bind at 1. rewrite Hfind.
  now destruct (N.of_nat user_id <? 2 ^ 63)%N.
Qed.

(** ** Access control *)

Section AccessControl.

Variable VideoFileClip : string -> option data -> result VideoClip.
Variable imageio_get_reader : string -> option data -> result Reader.

(** X21.  For a user who is not a superuser, [upload], [delete_video] and
    [delete_user] do nothing but flash a refusal and redirect to the home
    page, whatever the request carries. *)
Theorem non_superuser_is_refused (current_user : User.t) (method request_url : string)
    (files_video : option FileStorage.t) (form_title : option string)
    (video_id user_id : nat) (w : World) :
  User.is_superuser current_user = false ->
  upload VideoFileClip imageio_get_reader current_user method request_url
    files_video form_title w =
    (set_flashes (fun fl => (fl ++ ["Only superusers can upload videos"])%list) w,
     Return (Redirect "home")) /\
  delete_video current_user video_id w =
    (set_flashes (fun fl => (fl ++ ["Only superusers can delete videos"])%list) w,
     Return (Redirect "home")) /\
  delete_user current_user user_id w =
    (set_flashes
       (fun fl => (fl ++ ["Access denied. Only superusers can delete users."])%list) w,
     Return (Redirect "home")).
Proof.
  intros H. unfold upload, delete_video, delete_user. rewrite H. now repeat split.
Qed.

End AccessControl.

(** * Concrete runs, continued *)

(** Both libraries open the stored video and fail on its frames. *)
Lemma failed_extraction_closes_nothing_witness :
  exists w',
    generate_thumbnail unreadable_VideoFileClip unreadable_get_reader video_service
      cat_video_path cat_thumbnail_path stored_world =
      (w', Raise (ThumbnailGenerationError
                    ("Failed to generate thumbnail: " +:+ "Reached end of video"))) /\
    calls w' =
      (calls stored_world ++
       [Call_VideoFileClip cat_video_path;
        Call_save_frame cat_thumbnail_path (Qmin 1 (duration unreadable_clip));
        Call_get_reader cat_video_path; Call_get_data 0])%list /\
    fs w' = fs stored_world.
Proof.
  apply (failed_extraction_closes_nothing unreadable_VideoFileClip unreadable_get_reader
           video_service cat_video_path cat_thumbnail_path stored_world
           unreadable_clip unreadable_reader
           (LibraryError "MoviePy error: failed to read the first frame")
           (IndexError "Reached end of video")); reflexivity.
Defined.

(** The upload of cat.mp4 into empty stores. *)
Lemma save_video_stores_both_assets_witness :
  files (fs (fst (save_video decoding_VideoFileClip decoding_get_reader video_service
                    (Some cat_file) (Some "Cat Video") empty_world)))
    !! ("static/uploads/" +:+ "20240309_140507_cat.mp4") =
    Some (FileStorage.stream cat_file) /\
  is_Some (files (fs (fst (save_video decoding_VideoFileClip decoding_get_reader
                             video_service (Some cat_file) (Some "Cat Video")
                             empty_world)))
             !! ("static/thumbnails/" +:+ "thumb_20240309_140507_cat.jpg")).
Proof.
  apply (save_video_stores_both_assets decoding_VideoFileClip decoding_get_reader
           cat_file (Some "Cat Video") empty_world).
  vm_compute. reflexivity.
Defined.

(** The upload of cat.mp4 onto a stored asset that refuses the write and
    accepts removal: the stored asset is gone afterwards. *)
Lemma save_video_refused_write_witness :
  save_video decoding_VideoFileClip decoding_get_reader video_service
    (Some cat_file) (Some "Cat Video") read_only_world =
  (set_fs (fun f => mk_FS (delete cat_video_path (files f)) (locked f) (read_only f))
     read_only_world,
   Raise (VideoUploadError
            ("Failed to upload video: " +:+
             "[Errno 13] Permission denied: '" +:+ cat_video_path +:+ "'"))).
Proof.
  apply (save_video_refused_write decoding_VideoFileClip decoding_get_reader video_service
           cat_file (Some "Cat Video") read_only_world).
  - vm_compute. reflexivity.
  - vm_compute. reflexivity.
Defined.

(** cat.mp4 and cat.avi, uploaded at the same clock reading. *)
Lemma thumbnail_key_ignores_extension_witness :
  "thumb_20240309_140507_cat.jpg" = "thumb_20240309_140507_cat.jpg".
Proof.
  eapply (thumbnail_key_ignores_extension decoding_VideoFileClip decoding_get_reader
            video_service cat_file cat_avi_file (Some "Cat") (Some "Cat again")
            empty_world _ stored_world _ "cat" "mp4" "avi"
            "20240309_140507_cat.mp4" "20240309_140507_cat.avi").
  - reflexivity.
  - reflexivity.
  - reflexivity.
  - reflexivity.
  - reflexivity.
  - vm_compute. reflexivity.
  - vm_compute. reflexivity.
Defined.

(** The administrator uploads cat.mp4, titled, into empty stores. *)
Lemma upload_adds_one_record_witness :
  exists w2,
    upload decoding_VideoFileClip decoding_get_reader admin "POST" "/upload"
      (Some cat_file) (Some "Cat Video") empty_world =
      (w2, Return (Redirect "home")) /\
    videos (db w2) =
      (videos (db empty_world) ++
       [Video.mk (next_id (map Video.id (videos (db empty_world)))) "Cat Video"
          "20240309_140507_cat.mp4" (Some "thumb_20240309_140507_cat.jpg")
          (utcnow empty_world)])%list /\
    users (db w2) = users (db empty_world) /\
    session (db w2) = [] /\
    fs w2 = fs (fst (save_video decoding_VideoFileClip decoding_get_reader video_service
                       (Some cat_file) (Some "Cat Video") empty_world)) /\
    flashes w2 = (flashes empty_world ++ ["Video uploaded successfully!"])%list.
Proof.
  apply (upload_adds_one_record decoding_VideoFileClip decoding_get_reader admin
           "/upload" cat_file "Cat Video" empty_world).
  - reflexivity.
  - reflexivity.
  - vm_compute. reflexivity.
Defined.

(** The same upload with the title field missing from the form. *)
Lemma upload_without_title_orphans_assets_witness :
  exists w2 message,
    upload decoding_VideoFileClip decoding_get_reader admin "POST" "/upload"
      (Some cat_file) None empty_world =
      (w2, Raise (IntegrityError message)) /\
    videos (db w2) = videos (db empty_world) /\
    files (fs w2) !! ("static/uploads/" +:+ "20240309_140507_cat.mp4") =
      Some (FileStorage.stream cat_file) /\
    is_Some (files (fs w2) !! ("static/thumbnails/" +:+ "thumb_20240309_140507_cat.jpg")) /\
    flashes w2 = flashes empty_world.
Proof.
  eapply (upload_without_title_orphans_assets decoding_VideoFileClip decoding_get_reader
            admin "/upload" cat_file empty_world).
  - reflexivity.
  - reflexivity.
  - vm_compute. reflexivity.
Defined.

(** The administrator uploads cat.mp4 and deletes it again. *)
Lemma upload_then_delete_video_witness :
  exists w2 w3,
    upload decoding_VideoFileClip decoding_get_reader admin "POST" "/upload"
      (Some cat_file) (Some "Cat Video") empty_world =
      (w2, Return (Redirect "home")) /\
    delete_video admin (next_id (map Video.id (videos (db empty_world)))) w2 =
      (w3, Return (Redirect "home")) /\
    videos (db w3) = videos (db empty_world) /\
    files (fs w3) !! ("static/uploads/" +:+ "20240309_140507_cat.mp4") = None /\
    files (fs w3) !! ("static/thumbnails/" +:+ "thumb_20240309_140507_cat.jpg") = None.
Proof.
  eapply (upload_then_delete_video decoding_VideoFileClip decoding_get_reader admin
            "/upload" cat_file "Cat Video" empty_world).
  - reflexivity.
  - reflexivity.
  - vm_compute. reflexivity.
  - apply not_elem_of_empty.
  - apply not_elem_of_empty.
Defined.

(** A key that no video has. *)
Lemma delete_video_missing_or_no_thumbnail_witness :
  exists message,
    delete_video admin 7 stored_world =
      (set_flashes (fun fl => (fl ++ ["Error deleting video: " +:+ message])%list)
         stored_world,
       Return (Redirect "home")).
Proof.
  apply (delete_video_missing_or_no_thumbnail admin 7 stored_world).
  - reflexivity.
  - exact I.
Defined.

(** The administrator deletes the stored video: the account rows stay. *)
Lemma delete_video_touches_only_its_video_witness :
  users (db (fst (delete_video admin 1 stored_world))) = users (db stored_world).
Proof.
  apply (delete_video_touches_only_its_video admin 1 stored_world). reflexivity.
Defined.

(** A new name with a password of fourteen characters. *)
Lemma create_user_outcome_witness :
  (exists w',
     create_user sample_hash "carol" "first password" "s3" registered_world =
       (w', Return (User.mk (next_id (map User.id (users (db registered_world))))
                      "carol" (sample_hash "s3" "first password") false)) /\
     users (db w') =
       (users (db registered_world) ++
        [User.mk (next_id (map User.id (users (db registered_world)))) "carol"
           (sample_hash "s3" "first password") false])%list /\
     ~ In (next_id (map User.id (users (db registered_world))))
          (map User.id (users (db registered_world))) /\
     (8 <= String.length "first password")%nat /\
     ~ In "carol" (map User.username (users (db registered_world)))) \/
  (exists w' message,
     create_user sample_hash "carol" "first password" "s3" registered_world =
       (w', Raise (AuthenticationError message)) /\
     users (db w') = users (db registered_world) /\
     ((String.length "first password" < 8)%nat \/
      In "carol" (map User.username (users (db registered_world))))).
Proof.
  apply (create_user_outcome sample_hash "carol" "first password" "s3" registered_world).
  reflexivity.
Defined.

(** Carol registers and logs in. *)
Lemma create_then_authenticate_witness :
  exists w1 row,
    create_user sample_hash "carol" "first password" "s3" registered_world =
      (w1, Return row) /\
    authenticate_user sample_check "carol" "first password" w1 = (w1, Return row).
Proof.
  apply (create_then_authenticate sample_hash sample_check "carol" "first password"
           "s3" registered_world).
  - reflexivity.
  - simpl. lia.
  - simpl. intuition discriminate.
  - reflexivity.
Defined.

(** The registration form, for a name that is taken. *)
Lemma register_outcome_witness :
  exists w' target message,
    register sample_hash "POST" "bob" "another password" "s5" registered_world =
      (w', Return (Redirect target)) /\
    flashes w' = (flashes registered_world ++ [message])%list /\
    (target = "login" /\
     users (db w') =
       (users (db registered_world) ++
        [User.mk (next_id (map User.id (users (db registered_world)))) "bob"
           (sample_hash "s5" "another password") false])%list /\
     (8 <= String.length "another password")%nat /\
     ~ In "bob" (map User.username (users (db registered_world))) \/
     target = "register" /\
     users (db w') = users (db registered_world) /\
     ((String.length "another password" < 8)%nat \/
      In "bob" (map User.username (users (db registered_world))))).
Proof.
  apply (register_outcome sample_hash "bob" "another password" "s5" registered_world).
  reflexivity.
Defined.

(** Start-up on an empty database, twice. *)
Lemma main_idempotent_witness :
  exists w1 w2 added,
    main sample_hash "s0" empty_world = (w1, Return tt) /\
    users (db w1) = (users (db empty_world) ++ added)%list /\
    In "piyu" (map User.username (users (db w1))) /\
    main sample_hash "s9" w1 = (w2, Return tt) /\
    db w2 = db w1.
Proof.
  apply (main_idempotent sample_hash "s0" "s9" empty_world). reflexivity.
Defined.

Lemma registered_world_keys : NoDup (map User.id (users (db registered_world))).
Proof. simpl. repeat constructor; set_unfold; intuition lia. Qed.

(** The administrator deletes bob: the administrator's row stays. *)
Lemma delete_user_keeps_superusers_witness :
  In admin (users (db (fst (delete_user admin 2 registered_world)))).
Proof.
  apply (delete_user_keeps_superusers admin 2 registered_world admin).
  - reflexivity.
  - exact registered_world_keys.
  - simpl. now left.
  - reflexivity.
Defined.

Lemma delete_user_removes_exactly_witness :
  exists w',
    delete_user admin 2 registered_world = (w', Return (Redirect "admin_dashboard")) /\
    (forall u, In u (users (db w')) <-> In u (users (db registered_world)) /\ u <> bob) /\
    videos (db w') = videos (db registered_world) /\
    fs w' = fs registered_world.
Proof.
  apply (delete_user_removes_exactly admin 2 bob registered_world).
  - reflexivity.
  - reflexivity.
  - exact registered_world_keys.
  - reflexivity.
  - reflexivity.
Defined.

(** A key that no account has. *)
Lemma delete_user_missing_witness :
  delete_user admin 9 registered_world = (registered_world, Raise NotFound).
Proof.
  apply (delete_user_missing admin 9 registered_world); reflexivity.
Defined.

(** Bob, who is no superuser, tries all three. *)
Lemma non_superuser_is_refused_witness :
  upload decoding_VideoFileClip decoding_get_reader bob "POST" "/upload"
    (Some cat_file) (Some "Cat Video") stored_world =
    (set_flashes (fun fl => (fl ++ ["Only superusers can upload videos"])%list) stored_world,
     Return (Redirect "home")) /\
  delete_video bob 1 stored_world =
    (set_flashes (fun fl => (fl ++ ["Only superusers can delete videos"])%list) stored_world,
     Return (Redirect "home")) /\
  delete_user bob 1 stored_world =
    (set_flashes
       (fun fl => (fl ++ ["Access denied. Only superusers can delete users."])%list)
       stored_world,
     Return (Redirect "home")).
Proof.
  apply (non_superuser_is_refused decoding_VideoFileClip decoding_get_reader bob "POST"
           "/upload" (Some cat_file) (Some "Cat Video") 1 1 stored_world).
  reflexivity.
Defined.
